(** * HumeAgentService: prompt composition and remote agent synchronisation

    A shallow embedding of [HumeAiTwilio/hume_agent_service.py].  Python
    values are a small inductive type, Python strings are sequences of
    Unicode code points, exceptions are an explicit result type, and the
    effects of the service (log records, HTTP requests, clock reads) are
    threaded through a state-and-exception monad. *)

From Stdlib Require Import String Ascii List NArith ZArith Bool Lia PrimFloat.
Import ListNotations.
#[local] Set Warnings "-register-all".
Local Open Scope list_scope.

(** ** Python strings *)

(** A [str] is a sequence of code points; [len] and slicing count code
    points, not bytes. *)
Definition pystr := list N.

(** Source literals are written below as UTF-8 text; [u8] reads such a
    literal as the code points that Python holds for it. *)
Fixpoint utf8_decode (bs : list N) : pystr :=
  match bs with
  | [] => []
  | b :: r =>
      if (b <? 128)%N then b :: utf8_decode r
      else if (b <? 224)%N then
        match r with
        | c1 :: r1 => ((b - 192) * 64 + (c1 - 128))%N :: utf8_decode r1
        | _ => []
        end
      else if (b <? 240)%N then
        match r with
        | c1 :: c2 :: r2 =>
            ((b - 224) * 4096 + (c1 - 128) * 64 + (c2 - 128))%N :: utf8_decode r2
        | _ => []
        end
      else
        match r with
        | c1 :: c2 :: c3 :: r3 =>
            ((b - 240) * 262144 + (c1 - 128) * 4096 + (c2 - 128) * 64 + (c3 - 128))%N
              :: utf8_decode r3
        | _ => []
        end
  end.

Definition u8 (s : string) : pystr :=
  utf8_decode (map N_of_ascii (list_ascii_of_string s)).

(** The escape [\n] and the double quote of the source literals. *)
Definition nl : pystr := [10%N].
Definition dq : pystr := [34%N].

Fixpoint pystr_eqb (s t : pystr) : bool :=
  match s, t with
  | [], [] => true
  | a :: s', b :: t' => (a =? b)%N && pystr_eqb s' t'
  | _, _ => false
  end.

Fixpoint starts_with (p s : pystr) : bool :=
  match p, s with
  | [], _ => true
  | a :: p', b :: s' => (a =? b)%N && starts_with p' s'
  | _ :: _, [] => false
  end.

(** [needle in s] *)
Fixpoint contains (needle s : pystr) : bool :=
  starts_with needle s
  || match s with
     | [] => false
     | _ :: s' => contains needle s'
     end.

(** [s.replace(old, new)] for single characters. *)
Definition replace_char (old new : N) (s : pystr) : pystr :=
  map (fun c => if (c =? old)%N then new else c) s.

(** [sep.join(parts)] on strings. *)
Fixpoint join (sep : pystr) (parts : list pystr) : pystr :=
  match parts with
  | [] => []
  | [p] => p
  | p :: rest => p ++ sep ++ join sep rest
  end.

(** ** Python values *)

(** The values a model field, a JSON column or a JSON response body holds. *)
Inductive pyval : Type :=
| PNone
| PBool (b : bool)
| PInt (z : Z)
| PFloat (f : float)
| PStr (s : pystr)
| PList (l : list pyval)
| PDict (d : list (pystr * pyval)).

(** [bool(v)] *)
Definition truthy (v : pyval) : bool :=
  match v with
  | PNone => false
  | PBool b => b
  | PInt z => negb (z =? 0)%Z
  | PFloat f => negb (PrimFloat.eqb f 0%float)
  | PStr s => match s with [] => false | _ => true end
  | PList l => match l with [] => false | _ => true end
  | PDict d => match d with [] => false | _ => true end
  end.

Definition isinstance_dict (v : pyval) : bool :=
  match v with PDict _ => true | _ => false end.

Definition isinstance_str (v : pyval) : bool :=
  match v with PStr _ => true | _ => false end.

(** ** Exceptions *)

Inductive exn : Type :=
| TypeError
| AttributeError
| KeyError
| ValueError
| RecursionError
| Timeout            (* requests.exceptions.Timeout *)
| ConnectionError    (* requests.exceptions.ConnectionError *)
| RuntimeError.

Inductive exc (A : Type) : Type :=
| Ok (a : A)
| Raise (e : exn).
Arguments Ok {A} a.
Arguments Raise {A} e.

(** Dictionary lookup, in insertion order. *)
Fixpoint lookup (d : list (pystr * pyval)) (key : pystr) : option pyval :=
  match d with
  | [] => None
  | (k, v) :: d' => if pystr_eqb k key then Some v else lookup d' key
  end.

(** [obj.get(key, default)] *)
Definition py_get (obj : pyval) (key : pystr) (default : pyval) : exc pyval :=
  match obj with
  | PDict d => Ok (match lookup d key with Some v => v | None => default end)
  | _ => Raise AttributeError
  end.

(** [obj[key]] with a string key *)
Definition py_getitem (obj : pyval) (key : pystr) : exc pyval :=
  match obj with
  | PDict d => match lookup d key with Some v => Ok v | None => Raise KeyError end
  | _ => Raise TypeError
  end.

(** [obj.items()] *)
Definition py_items (obj : pyval) : exc (list (pystr * pyval)) :=
  match obj with
  | PDict d => Ok d
  | _ => Raise AttributeError
  end.

(** [len(obj)] *)
Definition py_len (obj : pyval) : exc nat :=
  match obj with
  | PStr s => Ok (length s)
  | PList l => Ok (length l)
  | PDict d => Ok (length d)
  | _ => Raise TypeError
  end.

(** [s + obj] for a string [s] *)
Definition py_add (s : pystr) (obj : pyval) : exc pystr :=
  match obj with
  | PStr t => Ok (s ++ t)
  | _ => Raise TypeError
  end.

(** [sep.join(parts)] on a list of values: every item must be a [str]. *)
Fixpoint py_strings (parts : list pyval) : exc (list pystr) :=
  match parts with
  | [] => Ok []
  | PStr s :: rest =>
      match py_strings rest with
      | Ok l => Ok (s :: l)
      | Raise e => Raise e
      end
  | _ :: _ => Raise TypeError
  end.

Definition py_join (sep : pystr) (parts : list pyval) : exc pystr :=
  match py_strings parts with
  | Ok l => Ok (join sep l)
  | Raise e => Raise e
  end.

(** ** The world of the service *)

(** [datetime.now()] and [strftime('%Y%m%d%H%M%S')]: a timestamp at the
    resolution of one second. *)
Record datetime : Type := {
  year : nat; month : nat; day : nat;
  hour : nat; minute : nat; second : nat }.

Definition digit (n : nat) : N := (48 + N.of_nat (n mod 10))%N.
Definition pad2 (n : nat) : pystr := [digit (n / 10); digit n].
Definition pad4 (n : nat) : pystr :=
  [digit (n / 1000); digit (n / 100); digit (n / 10); digit n].

Definition strftime_YmdHMS (t : datetime) : pystr :=
  pad4 (year t) ++ pad2 (month t) ++ pad2 (day t)
  ++ pad2 (hour t) ++ pad2 (minute t) ++ pad2 (second t).

Inductive http_method : Type := POST | PATCH | DELETE | GET.

Record HttpRequest : Type := {
  method : http_method;
  url : pystr;
  json : option pyval;
  headers : list (pystr * pystr);
  timeout : nat }.

Record Response : Type := {
  status_code : Z;
  text : pystr;
  body_json : exc pyval     (* what [response.json()] gives *) }.

(** What the transport does with a request: it answers, or it raises. *)
Inductive Outcome : Type :=
| Answers (r : Response)
| Fails (e : exn).

(** The records the [logger] receives, with the data each message
    interpolates; the comment names the source line. *)
Inductive LogEvent : Type :=
| InfoAddingScript (chars : nat)                      (* 176 *)
| InfoAddingKnowledge                                 (* 188 *)
| InfoPromptBuilt (chars : nat) (script kb : bool)    (* 272-274 *)
| ErrorBuilding (e : exn)                             (* 279 *)
| InfoCreating (name : pystr) (script kb key : bool)
    (url : pystr) (chars : nat) (preview : pystr) (payload : pyval)  (* 91-100 *)
| InfoStatus (code : Z)                               (* 104 *)
| InfoCreated (config_id : pyval) (data : pyval)      (* 109-110 *)
| WarningNameExists (name unique : pystr)             (* 113-114 *)
| ErrorCreateFailed (code : Z) (text : pystr)         (* 124-125 *)
| ErrorTimeout                                        (* 129 *)
| ErrorConnection                                     (* 132 *)
| ErrorCreating (e : exn)                             (* 135-136 *)
| WarningNoUpdates                                    (* 315 *)
| InfoUpdating (config_id : pystr)                    (* 318 *)
| InfoUpdated (config_id : pystr)                     (* 322 *)
| ErrorUpdateFailed (code : Z) (text : pystr)         (* 325 *)
| ErrorUpdating (e : exn).                            (* 329 *)

(** The environment a call runs in.  [remote n] is how the provider
    treats the request that [n] earlier requests preceded, [clock n] is
    what the [n]-th reading of the clock returns; [sent], [ticks] and
    [log] record what the service has done so far. *)
Record World : Type := {
  remote : nat -> HttpRequest -> Outcome;
  clock : nat -> datetime;
  sent : list HttpRequest;
  ticks : nat;
  log : list LogEvent }.

(** ** State and exceptions *)

Definition M (S A : Type) : Type := S -> exc A * S.

Definition ret {S A} (a : A) : M S A := fun s => (Ok a, s).

Definition bind {S A B} (m : M S A) (k : A -> M S B) : M S B :=
  fun s =>
    match m s with
    | (Ok a, s') => k a s'
    | (Raise e, s') => (Raise e, s')
    end.

Definition lift {S A} (r : exc A) : M S A := fun s => (r, s).

(** [try: m  except ... as e: handler e] *)
Definition try_except {S A} (m : M S A) (handler : exn -> M S A) : M S A :=
  fun s =>
    match m s with
    | (Ok a, s') => (Ok a, s')
    | (Raise e, s') => handler e s'
    end.

Declare Scope py_scope.
Delimit Scope py_scope with py.
Notation "x <- m ;; k" := (bind m (fun x => k))
  (at level 61, m at next level, right associativity) : py_scope.
Notation "m ;; k" := (bind m (fun _ => k))
  (at level 61, right associativity) : py_scope.
Local Open Scope py_scope.

Fixpoint for_each {S A} (items : list A) (body : A -> M S unit) : M S unit :=
  match items with
  | [] => ret tt
  | x :: rest => body x ;; for_each rest body
  end.

Definition logger (ev : LogEvent) : M World unit :=
  fun w =>
    (Ok tt, {| remote := remote w; clock := clock w; sent := sent w;
               ticks := ticks w; log := log w ++ [ev] |}).

(** [datetime.now()] *)
Definition datetime_now : M World datetime :=
  fun w =>
    (Ok (clock w (ticks w)),
     {| remote := remote w; clock := clock w; sent := sent w;
        ticks := S (ticks w); log := log w |}).

(** [requests.post], [requests.patch], ...: the request goes out, then the
    transport answers or raises. *)
Definition requests_send (req : HttpRequest) : M World Response :=
  fun w =>
    let w' := {| remote := remote w; clock := clock w; sent := sent w ++ [req];
                 ticks := ticks w; log := log w |} in
    match remote w (length (sent w)) req with
    | Answers r => (Ok r, w')
    | Fails e => (Raise e, w')
    end.

(** ** The agent object *)

Module Agent.
Record t : Type := {
  name : pyval;
  business_info : pyval;
  sales_script_text : pyval;
  knowledge_files : pyval }.
End Agent.

(** The local variable [prompt_parts] of [_build_system_prompt], beside
    the world. *)
Record BuildState : Type := {
  prompt_parts : list pyval;
  world : World }.

Definition append (part : pyval) : M BuildState unit :=
  fun st =>
    (Ok tt, {| prompt_parts := prompt_parts st ++ [part]; world := world st |}).

Definition in_world {A} (m : M World A) : M BuildState A :=
  fun st =>
    match m (world st) with
    | (r, w') => (r, {| prompt_parts := prompt_parts st; world := w' |})
    end.

Definition read_parts : M BuildState (list pyval) :=
  fun st => (Ok (prompt_parts st), st).

(** A run of [prompt_parts.append(<literal>)] statements. *)
Definition append_lines (lines : list pystr) : M BuildState unit :=
  for_each lines (fun line => append (PStr line)).

(** [prompt_parts = []] ... : the body runs with a fresh list. *)
Definition with_prompt_parts {A} (m : M BuildState A) : M World A :=
  fun w =>
    match m {| prompt_parts := []; world := w |} with
    | (r, st) => (r, world st)
    end.

(** ** [_build_system_prompt] *)

Definition banner : pystr :=
  u8 "━━━━━━━━━━━━━━━━━━━━━━━━━━━━━━━━━━━━━━━━━━━━━━━".

(** Lines 177-183: the banner and the instructions before the script. *)
Definition call_script_preamble : list pystr :=
  [ nl ++ nl ++ banner;
    u8 "CALL SCRIPT - NATURAL CONVERSATION FLOW:";
    banner;
    nl ++ u8 "HOW TO USE THIS SCRIPT:";
    u8 "• If customer LISTENS silently → Continue step-by-step";
    u8 "• If customer INTERRUPTS → Respond to their question/comment";
    u8 "• After answering → Continue where you left off in the script" ].

(** Lines 231-243. *)
Definition question_handling_lines (company_name : pystr) : list pystr :=
  [ nl ++ nl ++ banner;
    u8 "INTELLIGENT QUESTION HANDLING:";
    banner;
    nl ++ u8 "WHEN CUSTOMER ASKS QUESTIONS:";
    u8 "1. Search knowledge base above for relevant information";
    u8 "2. Answer in 1-2 sentences maximum";
    u8 "3. After answering, RETURN to script where you left off";
    nl ++ u8 "EXAMPLES:";
    u8 "• " ++ dq ++ u8 "Can you hear me?" ++ dq ++ u8 " → " ++ dq
      ++ u8 "Yes, I can hear you perfectly. Let me continue..." ++ dq;
    u8 "• " ++ dq ++ u8 "How are you?" ++ dq ++ u8 " → " ++ dq
      ++ u8 "I'm great, thanks! Let me tell you about " ++ company_name
      ++ u8 "..." ++ dq;
    u8 "• Technical question → Answer from knowledge base + continue script";
    u8 "• Off-topic → " ++ dq
      ++ u8 "Let me connect you with someone for that. Now, about "
      ++ company_name ++ u8 "..." ++ dq;
    nl ++ u8 "GOLDEN RULE: Always bring conversation back to sales call after answering questions!" ].

(** Lines 246-269. *)
Definition critical_rules_lines (company_name : pystr) : list pystr :=
  [ nl ++ nl ++ banner;
    u8 "CRITICAL RESPONSE RULES:";
    banner;
    nl ++ u8 "1. Maximum 2 sentences per response - NO EXCEPTIONS";
    u8 "2. Use exact script wording for main call flow";
    u8 "3. For questions: Search knowledge base → Answer briefly → Return to script";
    u8 "4. No filler words: 'um', 'uh', 'like', 'you know', 'hmm', 'well'";
    u8 "5. Be direct and professional";
    u8 "6. Answer ANY question about " ++ company_name ++ u8 " using knowledge base";
    u8 "7. For unrelated questions: Brief answer → Redirect to sales call";
    u8 "8. Never make up information not in knowledge base";
    u8 "9. Always return to script after answering questions";
    u8 "10. Keep moving toward demo booking goal";
    nl ++ u8 "FORBIDDEN BEHAVIORS:";
    u8 "❌ Long responses (>2 sentences)";
    u8 "❌ Completely ignoring customer questions";
    u8 "❌ Saying 'I don't know' when info is in knowledge base";
    u8 "❌ Changing script wording";
    u8 "❌ Uncertain phrases ('I think', 'maybe', 'probably')";
    u8 "❌ Getting stuck on off-topic discussion";
    u8 "❌ Forgetting to return to script after answering";
    nl ++ u8 "TONE: Professional, confident, clear, helpful";
    u8 "STYLE: Sales call with intelligent question handling";
    u8 "GOAL: Answer questions intelligently, deliver script, book demo" ].

Section Builtins.

(** Two builtins of the interpreter are taken as given: [str.upper], and
    what [str()] (and an f-string field) makes of a value that is not
    itself a string. *)
Variable upper : pystr -> pystr.
Variable str_other : pyval -> pystr.

(** [str(v)], [f"{v}"] *)
Definition py_str (v : pyval) : pystr :=
  match v with
  | PStr s => s
  | _ => str_other v
  end.

(** [obj.upper()] *)
Definition py_upper (obj : pyval) : exc pystr :=
  match obj with
  | PStr s => Ok (upper s)
  | _ => Raise AttributeError
  end.

(** Lines 158-159. *)
Definition company_name_of (agent_obj : Agent.t) : M BuildState pyval :=
  let company_name := PStr (u8 "our company") in
  if truthy (Agent.business_info agent_obj)
     && isinstance_dict (Agent.business_info agent_obj)
  then lift (py_get (Agent.business_info agent_obj) (u8 "company_name") company_name)
  else ret company_name.

(** Lines 166-172. *)
Definition header_block (agent_obj : Agent.t) (company_name : pyval)
  : M BuildState unit :=
  append (PStr (u8 "You are a professional AI sales agent calling from "
                ++ py_str company_name ++ u8 ".")) ;;
  if truthy (Agent.business_info agent_obj)
     && isinstance_dict (Agent.business_info agent_obj)
  then
    biz_desc <- lift (py_get (Agent.business_info agent_obj)
                        (u8 "business_description") PNone) ;;
    if truthy biz_desc
    then append (PStr (nl ++ u8 "COMPANY: " ++ py_str company_name
                       ++ u8 " - " ++ py_str biz_desc))
    else ret tt
  else ret tt.

(** Lines 174-184. *)
Definition call_script_block (agent_obj : Agent.t) : M BuildState unit :=
  if truthy (Agent.sales_script_text agent_obj) then
    chars <- lift (py_len (Agent.sales_script_text agent_obj)) ;;
    in_world (logger (InfoAddingScript chars)) ;;
    append_lines call_script_preamble ;;
    script <- lift (py_add nl (Agent.sales_script_text agent_obj)) ;;
    append (PStr script)
  else ret tt.

(** Lines 194-221, with [biz = agent_obj.business_info]. *)
Definition business_info_block (biz : pyval) : M BuildState unit :=
  website <- lift (py_get biz (u8 "company_website") PNone) ;;
  (if truthy website then
     v <- lift (py_getitem biz (u8 "company_website")) ;;
     append (PStr (nl ++ u8 "Website: " ++ py_str v))
   else ret tt) ;;
  industry <- lift (py_get biz (u8 "industry") PNone) ;;
  (if truthy industry then
     v <- lift (py_getitem biz (u8 "industry")) ;;
     append (PStr (u8 "Industry: " ++ py_str v))
   else ret tt) ;;
  product_features <- lift (py_get biz (u8 "product_features") PNone) ;;
  (if truthy product_features then
     append (PStr (nl ++ u8 "PRODUCT FEATURES:")) ;;
     features <- lift (py_getitem biz (u8 "product_features")) ;;
     match features with
     | PList l => for_each l (fun feat => append (PStr (u8 "• " ++ py_str feat)))
     | PStr _ => append features
     | _ => ret tt
     end
   else ret tt) ;;
  pricing_info <- lift (py_get biz (u8 "pricing_info") PNone) ;;
  (if truthy pricing_info then
     append (PStr (nl ++ u8 "PRICING:")) ;;
     v <- lift (py_getitem biz (u8 "pricing_info")) ;;
     append v
   else ret tt) ;;
  target_customers <- lift (py_get biz (u8 "target_customers") PNone) ;;
  (if truthy target_customers then
     append (PStr (nl ++ u8 "TARGET CUSTOMERS:")) ;;
     v <- lift (py_getitem biz (u8 "target_customers")) ;;
     append v
   else ret tt).

(** Lines 224-228. *)
Definition knowledge_files_block (agent_obj : Agent.t) : M BuildState unit :=
  if truthy (Agent.knowledge_files agent_obj)
     && isinstance_dict (Agent.knowledge_files agent_obj)
  then
    items <- lift (py_items (Agent.knowledge_files agent_obj)) ;;
    for_each items (fun '(key, value) =>
      if truthy value then
        append (PStr (nl ++ replace_char 95 32 (upper key) ++ u8 ":")) ;;
        append (PStr (py_str value))
      else ret tt)
  else ret tt.

(** Lines 186-228. *)
Definition knowledge_base_block (agent_obj : Agent.t) (company_name : pyval)
  : M BuildState unit :=
  if truthy (Agent.knowledge_files agent_obj)
     || truthy (Agent.business_info agent_obj)
  then
    in_world (logger InfoAddingKnowledge) ;;
    append (PStr (nl ++ nl ++ banner)) ;;
    shout <- lift (py_upper company_name) ;;
    append (PStr (shout ++ u8 " KNOWLEDGE BASE:")) ;;
    append (PStr banner) ;;
    (if truthy (Agent.business_info agent_obj)
        && isinstance_dict (Agent.business_info agent_obj)
     then business_info_block (Agent.business_info agent_obj)
     else ret tt) ;;
    knowledge_files_block agent_obj
  else ret tt.

(** Lines 154-276: the body of the [try], once [agent_obj] is known to
    be there. *)
Definition build_prompt (agent_obj : Agent.t) : M BuildState pystr :=
  company_name <- company_name_of agent_obj ;;
  let agent_name :=
    if truthy (Agent.name agent_obj) then Agent.name agent_obj
    else PStr (u8 "the sales team") in
  header_block agent_obj company_name ;;
  call_script_block agent_obj ;;
  knowledge_base_block agent_obj company_name ;;
  append_lines (question_handling_lines (py_str company_name)) ;;
  append_lines (critical_rules_lines (py_str company_name)) ;;
  parts <- read_parts ;;
  enhanced_prompt <- lift (py_join nl parts) ;;
  in_world (logger (InfoPromptBuilt (length enhanced_prompt)
                      (truthy (Agent.sales_script_text agent_obj))
                      (truthy (Agent.knowledge_files agent_obj)
                       || truthy (Agent.business_info agent_obj)))) ;;
  ret enhanced_prompt.

(** Lines 139-280.  [self] is not read. *)
Definition _build_system_prompt (base_prompt : pystr) (agent_obj : option Agent.t)
  : M World pystr :=
  try_except
    (match agent_obj with
     | None => ret base_prompt
     | Some agent => with_prompt_parts (build_prompt agent)
     end)
    (fun e => logger (ErrorBuilding e) ;; ret base_prompt).

(** ** The remote client *)

Definition HUME_API_BASE : pystr := u8 "https://api.hume.ai/v0".

Record HumeAgentService : Type := {
  api_key : pystr;
  base_url : pystr;
  service_headers : list (pystr * pystr) }.

(** Lines 27-33, for the key the configuration holds. *)
Definition new_service (HUME_API_KEY : pystr) : HumeAgentService :=
  {| api_key := HUME_API_KEY;
     base_url := HUME_API_BASE;
     service_headers :=
       [ (u8 "X-Hume-Api-Key", HUME_API_KEY);
         (u8 "Content-Type", u8 "application/json") ] |}.

(** Lines 61-89: the body of the create request. *)
Definition create_payload (name enhanced_prompt voice_name language : pystr)
  : pyval :=
  PDict
    [ (u8 "name", PStr name);
      (u8 "prompt", PDict [ (u8 "text", PStr enhanced_prompt) ]);
      (u8 "voice", PDict [ (u8 "provider", PStr (u8 "HUME_AI"));
                           (u8 "name", PStr voice_name) ]);
      (u8 "language", PDict [ (u8 "code", PStr language) ]);
      (u8 "ellm_model",
        PDict [ (u8 "provider", PStr (u8 "HUME_AI"));
                (u8 "model", PStr (u8 "anthropic.claude-3-5-sonnet-20240620-v1:0"));
                (u8 "allow_short_responses", PBool true) ]);
      (u8 "builtin_tools",
        PList [ PDict [ (u8 "name", PStr (u8 "web_search")); (u8 "enabled", PBool true) ];
                PDict [ (u8 "name", PStr (u8 "hang_up")); (u8 "enabled", PBool true) ] ]);
      (u8 "description",
        PStr (if 200 <? length enhanced_prompt
              then firstn 200 enhanced_prompt ++ u8 "..."
              else enhanced_prompt)) ].

(** [bool(agent_obj and agent_obj.<field>)] of lines 92-93. *)
Definition agent_has (field : Agent.t -> pyval) (agent_obj : option Agent.t) : bool :=
  match agent_obj with
  | None => false
  | Some agent => truthy (field agent)
  end.

(** Lines 104-126: what is made of the response.  [retry] is the call
    of [self.create_agent] under another name. *)
Definition handle_response (retry : pystr -> M World pyval) (name : pystr)
    (response : Response) : M World pyval :=
  logger (InfoStatus (status_code response)) ;;
  if (status_code response =? 201)%Z then
    data <- lift (body_json response) ;;
    config_id <- lift (py_get data (u8 "id") PNone) ;;
    logger (InfoCreated config_id data) ;;
    ret config_id
  else if (status_code response =? 409)%Z then
    logged_at <- datetime_now ;;
    logger (WarningNameExists name
              (name ++ u8 "_" ++ strftime_YmdHMS logged_at)) ;;
    now <- datetime_now ;;
    retry (name ++ u8 "_" ++ strftime_YmdHMS now)
  else
    logger (ErrorCreateFailed (status_code response) (text response)) ;;
    ret PNone.

(** Lines 128-137: the three [except] clauses. *)
Definition create_agent_handler (e : exn) : M World pyval :=
  match e with
  | Timeout => logger ErrorTimeout ;; ret PNone
  | ConnectionError => logger ErrorConnection ;; ret PNone
  | _ => logger (ErrorCreating e) ;; ret PNone
  end.

(** Lines 35-137.  [depth] is the room left on the interpreter's stack:
    a call that finds none raises [RecursionError], which the handler of
    the calling frame catches like any other exception. *)
Fixpoint create_agent (depth : nat) (self : HumeAgentService)
    (name system_prompt voice_name language : pystr)
    (agent_obj : option Agent.t) {struct depth} : M World pyval :=
  match depth with
  | O => lift (Raise RecursionError)
  | S depth' =>
      try_except
        (enhanced_prompt <- _build_system_prompt system_prompt agent_obj ;;
         let url := base_url self ++ u8 "/evi/configs" in
         let payload := create_payload name enhanced_prompt voice_name language in
         logger (InfoCreating name
                   (agent_has Agent.sales_script_text agent_obj)
                   (agent_has Agent.business_info agent_obj)
                   (truthy (PStr (api_key self)))
                   url (length enhanced_prompt) (firstn 200 enhanced_prompt)
                   payload) ;;
         response <- requests_send
                       {| method := POST; url := url; json := Some payload;
                          headers := service_headers self; timeout := 10 |} ;;
         handle_response
           (fun unique_name =>
              create_agent depth' self unique_name system_prompt voice_name
                language agent_obj)
           name response)
        create_agent_handler
  end.

(** [payload[key] = value] *)
Fixpoint setitem (d : list (pystr * pyval)) (key : pystr) (value : pyval)
  : list (pystr * pyval) :=
  match d with
  | [] => [(key, value)]
  | (k, v) :: d' =>
      if pystr_eqb k key then (k, value) :: d' else (k, v) :: setitem d' key value
  end.

(** Lines 282-330.  An argument left out is [None]. *)
Definition update_agent (self : HumeAgentService) (config_id : pystr)
    (name system_prompt voice_name language : pyval) : M World bool :=
  try_except
    (let url := base_url self ++ u8 "/evi/configs/" ++ config_id in
     let payload := [] in
     let payload :=
       if truthy name then setitem payload (u8 "name") name else payload in
     let payload :=
       if truthy system_prompt
       then setitem payload (u8 "prompt") (PDict [ (u8 "text", system_prompt) ])
       else payload in
     let payload :=
       if truthy voice_name
       then setitem payload (u8 "voice")
              (PDict [ (u8 "provider", PStr (u8 "HUME_AI")); (u8 "name", voice_name) ])
       else payload in
     let payload :=
       if truthy language
       then setitem payload (u8 "language") (PDict [ (u8 "code", language) ])
       else payload in
     if negb (truthy (PDict payload)) then
       logger WarningNoUpdates ;;
       ret false
     else
       logger (InfoUpdating config_id) ;;
       response <- requests_send
                     {| method := PATCH; url := url; json := Some (PDict payload);
                        headers := service_headers self; timeout := 10 |} ;;
       if (status_code response =? 200)%Z then
         logger (InfoUpdated config_id) ;;
         ret true
       else
         logger (ErrorUpdateFailed (status_code response) (text response)) ;;
         ret false)
    (fun e => logger (ErrorUpdating e) ;; ret false).

(** *** The other operations

    [delete_agent], [get_agent] and [list_agents] log records of their
    own; they are kept beside the world. *)
Inductive ClientEvent : Type :=
| InfoDeleting (config_id : pystr)                    (* 345 *)
| InfoDeleted (config_id : pystr)                     (* 349 *)
| ErrorDeleteFailed (code : Z) (text : pystr)         (* 352 *)
| ErrorDeleting (e : exn)                             (* 356 *)
| ErrorGetFailed (code : Z)                           (* 377 *)
| ErrorGetting (e : exn)                              (* 381 *)
| ErrorListFailed (code : Z)                          (* 400 *)
| ErrorListing (e : exn).                             (* 404 *)

Definition Client : Type := (World * list ClientEvent)%type.

Definition client_logger (ev : ClientEvent) : M Client unit :=
  fun c => (Ok tt, (fst c, snd c ++ [ev])).

Definition on_world {A} (m : M World A) : M Client A :=
  fun c =>
    match m (fst c) with
    | (r, w') => (r, (w', snd c))
    end.

(** [x in [200, 204]] *)
Definition status_in (code : Z) (codes : list Z) : bool :=
  existsb (Z.eqb code) codes.

(** Lines 332-357. *)
Definition delete_agent (self : HumeAgentService) (config_id : pystr)
  : M Client bool :=
  try_except
    (let url := base_url self ++ u8 "/evi/configs/" ++ config_id in
     client_logger (InfoDeleting config_id) ;;
     response <- on_world
                   (requests_send
                      {| method := DELETE; url := url; json := None;
                         headers := service_headers self; timeout := 10 |}) ;;
     if status_in (status_code response) [200%Z; 204%Z] then
       client_logger (InfoDeleted config_id) ;;
       ret true
     else
       client_logger (ErrorDeleteFailed (status_code response) (text response)) ;;
       ret false)
    (fun e => client_logger (ErrorDeleting e) ;; ret false).

(** Lines 359-382. *)
Definition get_agent (self : HumeAgentService) (config_id : pystr)
  : M Client pyval :=
  try_except
    (let url := base_url self ++ u8 "/evi/configs/" ++ config_id in
     response <- on_world
                   (requests_send
                      {| method := GET; url := url; json := None;
                         headers := service_headers self; timeout := 10 |}) ;;
     if (status_code response =? 200)%Z then
       lift (body_json response)
     else
       client_logger (ErrorGetFailed (status_code response)) ;;
       ret PNone)
    (fun e => client_logger (ErrorGetting e) ;; ret PNone).

(** Lines 384-405. *)
Definition list_agents (self : HumeAgentService) : M Client pyval :=
  try_except
    (let url := base_url self ++ u8 "/evi/configs" in
     response <- on_world
                   (requests_send
                      {| method := GET; url := url; json := None;
                         headers := service_headers self; timeout := 10 |}) ;;
     if (status_code response =? 200)%Z then
       data <- lift (body_json response) ;;
       lift (py_get data (u8 "configs") (PList []))
     else
       client_logger (ErrorListFailed (status_code response)) ;;
       ret (PList []))
    (fun e => client_logger (ErrorListing e) ;; ret (PList [])).

(** ** What the prompt is made of

    The composition written out section by section, as a value computed
    from the agent alone; the theorems below relate the code to it. *)

(** A field that is not a mapping has no keys. *)
Definition as_mapping (v : pyval) : list (pystr * pyval) :=
  match v with
  | PDict d => d
  | _ => []
  end.

(** [d.get(key)] *)
Definition field (d : list (pystr * pyval)) (key : pystr) : pyval :=
  match lookup d key with
  | Some v => v
  | None => PNone
  end.

Definition company_name_value (agent : Agent.t) : pyval :=
  match lookup (as_mapping (Agent.business_info agent)) (u8 "company_name") with
  | Some v => v
  | None => PStr (u8 "our company")
  end.

Definition header_line (company_name : pystr) : pystr :=
  u8 "You are a professional AI sales agent calling from " ++ company_name ++ u8 ".".

Definition header_lines (agent : Agent.t) : list pystr :=
  let company_name := py_str (company_name_value agent) in
  let biz_desc :=
    field (as_mapping (Agent.business_info agent)) (u8 "business_description") in
  header_line company_name
  :: (if truthy biz_desc
      then [ nl ++ u8 "COMPANY: " ++ company_name ++ u8 " - " ++ py_str biz_desc ]
      else []).

(** The call script: the preamble, then the script itself. *)
Definition call_script_lines (agent : Agent.t) : list pystr :=
  match Agent.sales_script_text agent with
  | PStr (c :: s) => call_script_preamble ++ [ nl ++ c :: s ]
  | _ => []
  end.

Definition website_lines (d : list (pystr * pyval)) : list pystr :=
  let v := field d (u8 "company_website") in
  if truthy v then [ nl ++ u8 "Website: " ++ py_str v ] else [].

Definition industry_lines (d : list (pystr * pyval)) : list pystr :=
  let v := field d (u8 "industry") in
  if truthy v then [ u8 "Industry: " ++ py_str v ] else [].

(** One bullet per element of a sequence, the text itself for a text. *)
Definition product_features_lines (d : list (pystr * pyval)) : list pystr :=
  let v := field d (u8 "product_features") in
  if truthy v then
    (nl ++ u8 "PRODUCT FEATURES:")
    :: match v with
       | PList l => map (fun feat => u8 "• " ++ py_str feat) l
       | PStr s => [ s ]
       | _ => []
       end
  else [].

Definition pricing_lines (d : list (pystr * pyval)) : list pystr :=
  let v := field d (u8 "pricing_info") in
  if truthy v then [ nl ++ u8 "PRICING:"; py_str v ] else [].

Definition target_customers_lines (d : list (pystr * pyval)) : list pystr :=
  let v := field d (u8 "target_customers") in
  if truthy v then [ nl ++ u8 "TARGET CUSTOMERS:"; py_str v ] else [].

(** A knowledge file: its label in upper case with spaces for
    underscores, then its value as text; nothing for an empty value. *)
Definition knowledge_file_lines (entry : pystr * pyval) : list pystr :=
  let '(key, value) := entry in
  if truthy value
  then [ nl ++ replace_char 95 32 (upper key) ++ u8 ":"; py_str value ]
  else [].

Definition knowledge_base_included (agent : Agent.t) : bool :=
  truthy (Agent.knowledge_files agent) || truthy (Agent.business_info agent).

Definition knowledge_base_banner (company_name : pystr) : list pystr :=
  [ nl ++ nl ++ banner; upper company_name ++ u8 " KNOWLEDGE BASE:"; banner ].

Definition knowledge_base_contents (agent : Agent.t) : list pystr :=
  let biz := as_mapping (Agent.business_info agent) in
  website_lines biz ++ industry_lines biz ++ product_features_lines biz
  ++ pricing_lines biz ++ target_customers_lines biz
  ++ flat_map knowledge_file_lines (as_mapping (Agent.knowledge_files agent)).

Definition knowledge_base_lines (agent : Agent.t) : list pystr :=
  if knowledge_base_included agent
  then knowledge_base_banner (py_str (company_name_value agent))
       ++ knowledge_base_contents agent
  else [].

Definition composed_lines (agent : Agent.t) : list pystr :=
  header_lines agent ++ call_script_lines agent ++ knowledge_base_lines agent
  ++ question_handling_lines (py_str (company_name_value agent))
  ++ critical_rules_lines (py_str (company_name_value agent)).

Definition composed (agent : Agent.t) : pystr := join nl (composed_lines agent).

(** The fields the composition needs as text are text (or empty). *)
Definition text_or_empty (v : pyval) : bool :=
  negb (truthy v) || isinstance_str v.

Definition well_formed (agent : Agent.t) : bool :=
  text_or_empty (Agent.sales_script_text agent)
  && isinstance_str (company_name_value agent)
  && text_or_empty (field (as_mapping (Agent.business_info agent)) (u8 "pricing_info"))
  && text_or_empty (field (as_mapping (Agent.business_info agent)) (u8 "target_customers")).

(** What [_build_system_prompt] returns. *)
Definition prompt_text (base_prompt : pystr) (agent_obj : option Agent.t) : pystr :=
  match agent_obj with
  | None => base_prompt
  | Some agent => if well_formed agent then composed agent else base_prompt
  end.

(** The parts as the code collects them, before [join] looks at them. *)
Definition business_info_parts (d : list (pystr * pyval)) : list pyval :=
  map PStr (website_lines d) ++ map PStr (industry_lines d)
  ++ map PStr (product_features_lines d)
  ++ (if truthy (field d (u8 "pricing_info"))
      then [ PStr (nl ++ u8 "PRICING:"); field d (u8 "pricing_info") ] else [])
  ++ (if truthy (field d (u8 "target_customers"))
      then [ PStr (nl ++ u8 "TARGET CUSTOMERS:"); field d (u8 "target_customers") ]
      else []).

Definition collected_parts (agent : Agent.t) : list pyval :=
  map PStr (header_lines agent) ++ map PStr (call_script_lines agent)
  ++ (if knowledge_base_included agent
      then map PStr (knowledge_base_banner (py_str (company_name_value agent)))
           ++ business_info_parts (as_mapping (Agent.business_info agent))
           ++ map PStr (flat_map knowledge_file_lines
                          (as_mapping (Agent.knowledge_files agent)))
      else [])
  ++ map PStr (question_handling_lines (py_str (company_name_value agent)))
  ++ map PStr (critical_rules_lines (py_str (company_name_value agent))).

(** The state a block leaves: parts appended, records logged. *)
Definition logged (evs : list LogEvent) (w : World) : World :=
  {| remote := remote w; clock := clock w; sent := sent w;
     ticks := ticks w; log := log w ++ evs |}.

Definition advance (ps : list pyval) (evs : list LogEvent) (st : BuildState)
  : BuildState :=
  {| prompt_parts := prompt_parts st ++ ps; world := logged evs (world st) |}.

(** A block runs to its end, appending [ps]. *)
Definition yields {A} (m : M BuildState A) (st : BuildState) (a : A)
    (ps : list pyval) : Prop :=
  exists evs, m st = (Ok a, advance ps evs st).

(** A block raises. *)
Definition fails {A} (m : M BuildState A) (st : BuildState) : Prop :=
  exists e ps evs, m st = (Raise e, advance ps evs st).

(** A computation ends with [r], having appended and logged something. *)
Definition results {A} (m : M BuildState A) (st : BuildState) (r : exc A) : Prop :=
  exists ps evs, m st = (r, advance ps evs st).

(** The create request of lines 59-102. *)
Definition create_request (self : HumeAgentService)
    (name enhanced_prompt voice_name language : pystr) : HttpRequest :=
  {| method := POST;
     url := base_url self ++ u8 "/evi/configs";
     json := Some (create_payload name enhanced_prompt voice_name language);
     headers := service_headers self;
     timeout := 10 |}.

(** The world after one more request went out. *)
Definition sent_to (req : HttpRequest) (w : World) : World :=
  {| remote := remote w; clock := clock w; sent := sent w ++ [req];
     ticks := ticks w; log := log w |}.

(** The provider and the clock stay what they are, and requests are
    only ever added. *)
Definition extends (w w' : World) : Prop :=
  remote w' = remote w /\ clock w' = clock w
  /\ exists more, sent w' = sent w ++ more.

Definition grows {A} (m : M World A) : Prop :=
  forall w, extends w (snd (m w)).

(** The provider answers 409. *)
Definition conflict (o : Outcome) : bool :=
  match o with
  | Answers r => (status_code r =? 409)%Z
  | Fails _ => false
  end.

(** ** Notions for the further properties *)

(** What stands before and after one line of a joined text. *)
Definition before_line (sep : pystr) (ls : list pystr) : pystr :=
  match ls with
  | [] => []
  | _ => join sep ls ++ sep
  end.

Definition after_line (sep : pystr) (ls : list pystr) : pystr :=
  match ls with
  | [] => []
  | _ => sep ++ join sep ls
  end.

(** The names [create_agent] goes through when it is answered 409 [k]
    times in a row: each is the one before with an underscore and the
    time of the second of the two clock readings of lines 114 and 117;
    [t] counts the readings made before. *)
Fixpoint retry_names (clock : nat -> datetime) (t : nat) (name : pystr) (k : nat)
  : list pystr :=
  name
  :: match k with
     | O => []
     | S k' =>
         retry_names clock (S (S t))
           (name ++ u8 "_" ++ strftime_YmdHMS (clock (S t))) k'
     end.

(** A computation adds requests that all satisfy [P], and no other. *)
Definition sends {A} (P : HttpRequest -> Prop) (m : M World A) : Prop :=
  forall w, exists more, sent (snd (m w)) = sent w ++ more /\ Forall P more.

(** The fields [update_agent] was given, as lines 305-312 lay them
    out: an argument that is [None] or empty is left out. *)
Definition update_fields (name system_prompt voice_name language : pyval)
  : list (pystr * pyval) :=
  (if truthy name then [ (u8 "name", name) ] else [])
  ++ (if truthy system_prompt
      then [ (u8 "prompt", PDict [ (u8 "text", system_prompt) ]) ] else [])
  ++ (if truthy voice_name
      then [ (u8 "voice",
               PDict [ (u8 "provider", PStr (u8 "HUME_AI"));
                       (u8 "name", voice_name) ]) ]
      else [])
  ++ (if truthy language
      then [ (u8 "language", PDict [ (u8 "code", language) ]) ] else []).

(** The request of one configuration, and the one of the collection. *)
Definition config_request (verb : http_method) (self : HumeAgentService)
    (config_id : pystr) (body : option pyval) : HttpRequest :=
  {| method := verb;
     url := base_url self ++ u8 "/evi/configs/" ++ config_id;
     json := body;
     headers := service_headers self;
     timeout := 10 |}.

Definition list_request (self : HumeAgentService) : HttpRequest :=
  {| method := GET;
     url := base_url self ++ u8 "/evi/configs";
     json := None;
     headers := service_headers self;
     timeout := 10 |}.

(** What [create_agent] makes of an answer that is no 409 (lines
    106-126 and the handlers): the value under id of a 201 whose body is
    a mapping, None in every other case. *)
Definition answer_value (o : Outcome) : pyval :=
  match o with
  | Answers r =>
      if (status_code r =? 201)%Z
      then match body_json r with
           | Ok (PDict d) => field d (u8 "id")
           | _ => PNone
           end
      else PNone
  | Fails _ => PNone
  end.

(** A request to the configurations of the provider, with the key of
    the service among its headers and ten seconds to answer. *)
Definition keyed (HUME_API_KEY : pystr) (req : HttpRequest) : Prop :=
  (exists rest, url req = u8 "https://api.hume.ai/v0/evi/configs" ++ rest)
  /\ headers req = [ (u8 "X-Hume-Api-Key", HUME_API_KEY);
                     (u8 "Content-Type", u8 "application/json") ]
  /\ timeout req = 10.

(** What the provider makes of the next request of a world. *)
Definition outcome_of (w : World) (req : HttpRequest) : Outcome :=
  remote w (length (sent w)) req.

(** ** Instances for closed examples *)

(** An instance of the two builtins for the examples: upper-casing of
    the ASCII letters, and the text of None and of the booleans.  The
    examples upper-case ASCII text only and call [str()] on strings
    only. *)
Definition ascii_upper (s : pystr) : pystr :=
  map (fun c => if (97 <=? c)%N && (c <=? 122)%N then (c - 32)%N else c) s.

Definition str_of_constants (v : pyval) : pystr :=
  match v with
  | PNone => u8 "None"
  | PBool true => u8 "True"
  | PBool false => u8 "False"
  | _ => []
  end.

Definition noon : datetime :=
  {| year := 2025; month := 1; day := 2; hour := 12; minute := 0; second := 7 |}.

Definition answer (code : Z) (body : exc pyval) : Outcome :=
  Answers {| status_code := code; text := []; body_json := body |}.

(** A world whose provider treats the [n]-th request as [script n]. *)
Definition world_of (script : nat -> Outcome) : World :=
  {| remote := fun n _ => script n; clock := fun _ => noon;
     sent := []; ticks := 0; log := [] |}.

Definition created : Outcome :=
  answer 201 (Ok (PDict [ (u8 "id", PStr (u8 "cfg-1")) ])).

Definition hume : HumeAgentService := new_service (u8 "secret").

Definition acme : Agent.t :=
  {| Agent.name := PStr (u8 "Bob");
     Agent.business_info :=
       PDict [ (u8 "company_name", PStr (u8 "Acme"));
               (u8 "company_website", PStr (u8 "acme.io"));
               (u8 "product_features", PList [ PStr (u8 "Fast"); PStr (u8 "Safe") ]);
               (u8 "pricing_info", PStr (u8 "$5 a month")) ];
     Agent.sales_script_text := PStr (u8 "Hello, this is Bob from Acme.");
     Agent.knowledge_files :=
       PDict [ (u8 "return_policy", PStr (u8 "30 days"));
               (u8 "open_hours", PStr []) ] |}.

(** The pricing info is a nested mapping where text is expected. *)
Definition malformed : Agent.t :=
  {| Agent.name := PStr (u8 "Bob");
     Agent.business_info :=
       PDict [ (u8 "pricing_info", PDict [ (u8 "basic", PInt 10) ]) ];
     Agent.sales_script_text := PStr (u8 "Hello");
     Agent.knowledge_files := PNone |}.

(** Business info is there, and empty. *)
Definition blank : Agent.t :=
  {| Agent.name := PStr (u8 "Bob");
     Agent.business_info := PDict [];
     Agent.sales_script_text := PNone;
     Agent.knowledge_files := PNone |}.

(** The business info is a text, not a mapping. *)
Definition leaflet : Agent.t :=
  {| Agent.name := PStr (u8 "Bob");
     Agent.business_info := PStr (u8 "see acme.io");
     Agent.sales_script_text := PNone;
     Agent.knowledge_files := PDict [ (u8 "faq", PStr (u8 "Ask us.")) ] |}.

(** The company name is a number. *)
Definition numbered : Agent.t :=
  {| Agent.name := PStr (u8 "Bob");
     Agent.business_info := PDict [ (u8 "company_name", PInt 7) ];
     Agent.sales_script_text := PNone;
     Agent.knowledge_files := PNone |}.

Definition quiet : World := world_of (fun _ => created).

(** A provider that answers 409 to the first [n] requests and creates
    the agent then. *)
Definition conflicts (n : nat) : World :=
  world_of (fun i => if i <? n then answer 409 (Raise ValueError) else created).

(** ** Running the blocks *)

Lemma logged_nil (w : World) : logged [] w = w.
Proof. destruct w; unfold logged; simpl. now rewrite app_nil_r. Qed.

Lemma logged_logged (evs1 evs2 : list LogEvent) (w : World) :
  logged evs2 (logged evs1 w) = logged (evs1 ++ evs2) w.
Proof. unfold logged; simpl. now rewrite app_assoc. Qed.

Lemma advance_nil (st : BuildState) : advance [] [] st = st.
Proof.
  destruct st; unfold advance; simpl. now rewrite app_nil_r, logged_nil.
Qed.

Lemma advance_advance ps1 evs1 ps2 evs2 (st : BuildState) :
  advance ps2 evs2 (advance ps1 evs1 st) = advance (ps1 ++ ps2) (evs1 ++ evs2) st.
Proof.
  unfold advance; simpl. now rewrite logged_logged, app_assoc.
Qed.

Lemma yields_ret {A} (a : A) st : yields (ret a) st a [].
Proof. exists []. unfold ret. now rewrite advance_nil. Qed.

Lemma yields_lift {A} (a : A) st : yields (lift (Ok a)) st a [].
Proof. exists []. unfold lift. now rewrite advance_nil. Qed.

Lemma yields_append (p : pyval) st : yields (append p) st tt [p].
Proof. exists []. unfold append, advance. now rewrite logged_nil. Qed.

Lemma yields_logger (ev : LogEvent) st : yields (in_world (logger ev)) st tt [].
Proof. exists [ev]. unfold in_world, logger, advance, logged; simpl. now rewrite app_nil_r. Qed.

Lemma yields_bind {A B} (m : M BuildState A) (k : A -> M BuildState B) st a ps b qs :
  yields m st a ps ->
  (forall st', yields (k a) st' b qs) ->
  yields (bind m k) st b (ps ++ qs).
Proof.
  intros [evs Hm] Hk. destruct (Hk (advance ps evs st)) as [evs' Hk'].
  exists (evs ++ evs'). unfold bind. now rewrite Hm, Hk', advance_advance.
Qed.

Lemma yields_if {A} (c : bool) (m1 m2 : M BuildState A) st a ps1 ps2 :
  (c = true -> yields m1 st a ps1) ->
  (c = false -> yields m2 st a ps2) ->
  yields (if c then m1 else m2) st a (if c then ps1 else ps2).
Proof. destruct c; auto. Qed.

Lemma yields_eq {A} (m : M BuildState A) st a ps ps' :
  yields m st a ps -> ps = ps' -> yields m st a ps'.
Proof. now intros H <-. Qed.

Lemma fails_lift {A} (e : exn) st : fails (@lift BuildState A (Raise e)) st.
Proof. exists e, [], []. unfold lift. now rewrite advance_nil. Qed.

Lemma fails_bind_l {A B} (m : M BuildState A) (k : A -> M BuildState B) st :
  fails m st -> fails (bind m k) st.
Proof.
  intros (e & ps & evs & Hm). exists e, ps, evs. unfold bind. now rewrite Hm.
Qed.

Lemma fails_bind_r {A B} (m : M BuildState A) (k : A -> M BuildState B) st a ps :
  yields m st a ps ->
  (forall st', fails (k a) st') ->
  fails (bind m k) st.
Proof.
  intros [evs Hm] Hk.
  destruct (Hk (advance ps evs st)) as (e & qs & evs' & Hk').
  exists e, (ps ++ qs), (evs ++ evs'). unfold bind.
  now rewrite Hm, Hk', advance_advance.
Qed.

Lemma yields_for_each_append {A} (f : A -> pyval) (items : list A) st :
  yields (for_each items (fun x => append (f x))) st tt (map f items).
Proof.
  revert st. induction items as [|x items IH]; intros st; simpl.
  - apply yields_ret.
  - change (f x :: map f items) with ([f x] ++ map f items).
    eapply yields_bind; [apply yields_append | intros; apply IH].
Qed.

Lemma yields_append_lines (lines : list pystr) st :
  yields (append_lines lines) st tt (map PStr lines).
Proof. apply (yields_for_each_append PStr). Qed.

(** Literals stay folded while the blocks are stepped through. *)
#[local] Opaque u8.

(** *** Dictionary access *)

Lemma py_get_field (d : list (pystr * pyval)) (key : pystr) :
  py_get (PDict d) key PNone = Ok (field d key).
Proof. reflexivity. Qed.

Lemma py_getitem_field (d : list (pystr * pyval)) (key : pystr) :
  truthy (field d key) = true -> py_getitem (PDict d) key = Ok (field d key).
Proof.
  unfold field, py_getitem. destruct (lookup d key); [reflexivity | discriminate].
Qed.

(** The guard [x and isinstance(x, dict)] holds of the non-empty
    mappings only. *)
Lemma guard_true (v : pyval) :
  truthy v && isinstance_dict v = true -> v = PDict (as_mapping v).
Proof. destruct v; simpl; try discriminate; try (rewrite andb_false_r; discriminate); reflexivity. Qed.

Lemma guard_false (v : pyval) :
  truthy v && isinstance_dict v = false -> as_mapping v = [].
Proof.
  destruct v; simpl; try reflexivity. destruct d; [reflexivity | discriminate].
Qed.

(** *** The blocks *)

Lemma company_name_of_run (agent : Agent.t) st :
  company_name_of agent st = (Ok (company_name_value agent), st).
Proof.
  unfold company_name_of, company_name_value.
  destruct (truthy (Agent.business_info agent)
            && isinstance_dict (Agent.business_info agent)) eqn:G.
  - rewrite (guard_true _ G) at 1. reflexivity.
  - rewrite (guard_false _ G). reflexivity.
Qed.

Lemma yields_header_block (agent : Agent.t) st :
  yields (header_block agent (company_name_value agent)) st tt
    (map PStr (header_lines agent)).
Proof.
  unfold header_block, header_lines. cbv zeta.
  change (map PStr (?x :: ?l)) with ([PStr x] ++ map PStr l).
  eapply yields_bind; [apply yields_append | intros st'].
  destruct (truthy (Agent.business_info agent)
            && isinstance_dict (Agent.business_info agent)) eqn:G.
  - rewrite (guard_true _ G) at 1. rewrite py_get_field.
    eapply yields_eq.
    + eapply yields_bind; [apply yields_lift | intros st''].
      apply yields_if; intros _; [apply yields_append | apply yields_ret].
    + simpl. destruct (truthy (field _ _)); reflexivity.
  - rewrite (guard_false _ G). simpl. apply yields_ret.
Qed.

Lemma yields_call_script_block (agent : Agent.t) st :
  text_or_empty (Agent.sales_script_text agent) = true ->
  yields (call_script_block agent) st tt (map PStr (call_script_lines agent)).
Proof.
  unfold call_script_block, call_script_lines, text_or_empty.
  destruct (Agent.sales_script_text agent) as [| b | z | f | [|c s] | l | d];
    cbn [isinstance_str]; rewrite ?orb_false_r, ?negb_true_iff;
    intros H; try rewrite H; try apply yields_ret.
  cbn [truthy py_len py_add]. rewrite map_app.
  eapply yields_eq.
  - eapply yields_bind; [apply yields_lift | intros ?].
    eapply yields_bind; [apply yields_logger | intros ?].
    eapply yields_bind; [apply yields_append_lines | intros ?].
    eapply yields_bind; [apply yields_lift | intros ?].
    apply yields_append.
  - reflexivity.
Qed.

Lemma fails_call_script_block (agent : Agent.t) st :
  text_or_empty (Agent.sales_script_text agent) = false ->
  fails (call_script_block agent) st.
Proof.
  unfold call_script_block, text_or_empty.
  destruct (Agent.sales_script_text agent) as [| b | z | f | s | l | d];
    cbn [isinstance_str]; rewrite ?orb_false_r, ?orb_true_r, ?negb_false_iff;
    try discriminate; intros H; rewrite H; cbn [py_len py_add];
    try (apply fails_bind_l, fails_lift).
  all: eapply fails_bind_r; [apply yields_lift | intros ?].
  all: eapply fails_bind_r; [apply yields_logger | intros ?].
  all: eapply fails_bind_r; [apply yields_append_lines | intros ?].
  all: apply fails_bind_l, fails_lift.
Qed.

(** A field looked up, tested, and rendered on one line. *)
Lemma yields_get_line d key (line : pyval -> pystr) st :
  yields (x <- lift (py_get (PDict d) key PNone) ;;
          if truthy x
          then v <- lift (py_getitem (PDict d) key) ;; append (PStr (line v))
          else ret tt) st tt
    (map PStr (if truthy (field d key) then [line (field d key)] else [])).
Proof.
  rewrite py_get_field.
  eapply yields_eq.
  - eapply yields_bind; [apply yields_lift | intros ?].
    apply yields_if; intros T; [rewrite (py_getitem_field _ _ T) | apply yields_ret].
    eapply yields_bind; [apply yields_lift | intros ?; apply yields_append].
  - simpl. destruct (truthy (field d key)); reflexivity.
Qed.

(** A field looked up, tested, and appended as it is under a heading. *)
Lemma yields_get_raw d key (heading : pystr) st :
  yields (x <- lift (py_get (PDict d) key PNone) ;;
          if truthy x
          then append (PStr heading) ;;
               v <- lift (py_getitem (PDict d) key) ;; append v
          else ret tt) st tt
    (if truthy (field d key) then [PStr heading; field d key] else []).
Proof.
  rewrite py_get_field.
  eapply yields_eq.
  - eapply yields_bind; [apply yields_lift | intros ?].
    apply yields_if; intros T; [rewrite (py_getitem_field _ _ T) | apply yields_ret].
    eapply yields_bind; [apply yields_append | intros ?].
    eapply yields_bind; [apply yields_lift | intros ?; apply yields_append].
  - reflexivity.
Qed.

Lemma yields_product_features d st :
  yields (product_features <- lift (py_get (PDict d) (u8 "product_features") PNone) ;;
          if truthy product_features then
            append (PStr (nl ++ u8 "PRODUCT FEATURES:")) ;;
            features <- lift (py_getitem (PDict d) (u8 "product_features")) ;;
            match features with
            | PList l => for_each l (fun feat => append (PStr (u8 "• " ++ py_str feat)))
            | PStr _ => append features
            | _ => ret tt
            end
          else ret tt) st tt
    (map PStr (product_features_lines d)).
Proof.
  rewrite py_get_field. unfold product_features_lines. cbv zeta.
  eapply yields_eq.
  - eapply yields_bind; [apply yields_lift | intros ?].
    apply yields_if; intros T; [rewrite (py_getitem_field _ _ T) | apply yields_ret].
    eapply yields_bind; [apply yields_append | intros ?].
    eapply yields_bind; [apply yields_lift | intros ?].
    instantiate (1 := map PStr
      match field d (u8 "product_features") with
      | PList l => map (fun feat => u8 "• " ++ py_str feat) l
      | PStr s => [s]
      | _ => []
      end).
    destruct (field d (u8 "product_features")); try apply yields_ret.
    + apply yields_append.
    + rewrite map_map.
      apply (yields_for_each_append (fun feat => PStr (u8 "• " ++ py_str feat))).
  - simpl. destruct (truthy (field d (u8 "product_features"))); reflexivity.
Qed.

Lemma bind_assoc {S A B C} (m : M S A) (f : A -> M S B) (g : B -> M S C) (s : S) :
  bind (bind m f) g s = bind m (fun x => bind (f x) g) s.
Proof. unfold bind. destruct (m s) as [[a|e] s']; reflexivity. Qed.

(** A statement that binds a value and uses it, followed by the rest. *)
Lemma yields_step {A B} (m : M BuildState A) (k : A -> M BuildState unit)
    (rest : M BuildState B) st b ps qs :
  yields (bind m k) st tt ps ->
  (forall st', yields rest st' b qs) ->
  yields (bind m (fun x => bind (k x) (fun _ => rest))) st b (ps ++ qs).
Proof.
  intros Hm Hrest.
  destruct (yields_bind (bind m k) (fun _ => rest) st tt ps b qs Hm Hrest)
    as [evs H].
  exists evs. now rewrite <- bind_assoc.
Qed.

Lemma yields_business_info_block (d : list (pystr * pyval)) st :
  yields (business_info_block (PDict d)) st tt (business_info_parts d).
Proof.
  unfold business_info_block, business_info_parts.
  eapply yields_step; [apply (yields_get_line d _ (fun v => nl ++ u8 "Website: " ++ py_str v)) | intros ?].
  eapply yields_step; [apply (yields_get_line d _ (fun v => u8 "Industry: " ++ py_str v)) | intros ?].
  eapply yields_step; [apply yields_product_features | intros ?].
  eapply yields_step; [apply yields_get_raw | intros ?].
  apply yields_get_raw.
Qed.

Lemma yields_knowledge_files (items : list (pystr * pyval)) st :
  yields (for_each items (fun '(key, value) =>
            if truthy value then
              append (PStr (nl ++ replace_char 95 32 (upper key) ++ u8 ":")) ;;
              append (PStr (py_str value))
            else ret tt)) st tt
    (map PStr (flat_map knowledge_file_lines items)).
Proof.
  revert st. induction items as [|[key value] items IH]; intros st.
  - apply yields_ret.
  - cbn [for_each flat_map]. rewrite map_app.
    eapply yields_bind; [| intros; apply IH].
    unfold knowledge_file_lines.
    eapply yields_eq.
    + apply yields_if; intros _; [| apply yields_ret].
      eapply yields_bind; [apply yields_append | intros; apply yields_append].
    + simpl. destruct (truthy value); reflexivity.
Qed.

Lemma yields_knowledge_files_block (agent : Agent.t) st :
  yields (knowledge_files_block agent) st tt
    (map PStr (flat_map knowledge_file_lines
                 (as_mapping (Agent.knowledge_files agent)))).
Proof.
  unfold knowledge_files_block.
  destruct (truthy (Agent.knowledge_files agent)
            && isinstance_dict (Agent.knowledge_files agent)) eqn:G.
  - rewrite (guard_true _ G) at 1. cbn [py_items].
    eapply yields_eq.
    + eapply yields_bind; [apply yields_lift | intros; apply yields_knowledge_files].
    + reflexivity.
  - rewrite (guard_false _ G). apply yields_ret.
Qed.

Lemma yields_knowledge_base_block (agent : Agent.t) (s : pystr) st :
  yields (knowledge_base_block agent (PStr s)) st tt
    (if knowledge_base_included agent
     then map PStr (knowledge_base_banner s)
          ++ business_info_parts (as_mapping (Agent.business_info agent))
          ++ map PStr (flat_map knowledge_file_lines
                         (as_mapping (Agent.knowledge_files agent)))
     else []).
Proof.
  unfold knowledge_base_block, knowledge_base_included.
  apply yields_if; intros _; [| apply yields_ret].
  eapply yields_eq.
  - eapply yields_bind; [apply yields_logger | intros ?].
    eapply yields_bind; [apply yields_append | intros ?].
    eapply yields_bind; [apply yields_lift | intros ?].
    eapply yields_bind; [apply yields_append | intros ?].
    eapply yields_bind; [apply yields_append | intros ?].
    eapply yields_bind; [| intros ?; apply yields_knowledge_files_block].
    instantiate (1 := business_info_parts (as_mapping (Agent.business_info agent))).
    destruct (truthy (Agent.business_info agent)
              && isinstance_dict (Agent.business_info agent)) eqn:G.
    + rewrite (guard_true _ G) at 1. apply yields_business_info_block.
    + rewrite (guard_false _ G). apply yields_ret.
  - reflexivity.
Qed.

Lemma fails_knowledge_base_block (agent : Agent.t) (company_name : pyval) st :
  knowledge_base_included agent = true ->
  isinstance_str company_name = false ->
  fails (knowledge_base_block agent company_name) st.
Proof.
  unfold knowledge_base_block, knowledge_base_included. intros -> Hn.
  eapply fails_bind_r; [apply yields_logger | intros ?].
  eapply fails_bind_r; [apply yields_append | intros ?].
  apply fails_bind_l.
  destruct company_name; try discriminate; apply fails_lift.
Qed.

(** *** Joining the parts *)

Lemma py_strings_map (lines : list pystr) : py_strings (map PStr lines) = Ok lines.
Proof. induction lines as [|l lines IH]; simpl; [| rewrite IH]; reflexivity. Qed.

Lemma py_strings_app (ps qs : list pyval) :
  py_strings (ps ++ qs) =
  match py_strings ps with
  | Ok ls =>
      match py_strings qs with
      | Ok ms => Ok (ls ++ ms)
      | Raise e => Raise e
      end
  | Raise e => Raise e
  end.
Proof.
  induction ps as [|p ps IH]; simpl.
  - destruct (py_strings qs); reflexivity.
  - destruct p; try reflexivity. rewrite IH.
    destruct (py_strings ps); [destruct (py_strings qs) |]; reflexivity.
Qed.

Lemma py_strings_raw (heading : pystr) (v : pyval) :
  py_strings (if truthy v then [PStr heading; v] else []) =
  if text_or_empty v
  then Ok (if truthy v then [heading; py_str v] else [])
  else Raise TypeError.
Proof.
  unfold text_or_empty.
  destruct v as [| b | z | f | [|c s] | [|x l] | [|x d]]; cbn [truthy isinstance_str];
    try reflexivity.
  - destruct b; reflexivity.
  - destruct (negb (z =? 0)%Z); reflexivity.
  - destruct (negb (PrimFloat.eqb f 0)); reflexivity.
Qed.

Lemma py_strings_business_info (d : list (pystr * pyval)) :
  py_strings (business_info_parts d) =
  if text_or_empty (field d (u8 "pricing_info"))
     && text_or_empty (field d (u8 "target_customers"))
  then Ok (website_lines d ++ industry_lines d ++ product_features_lines d
           ++ pricing_lines d ++ target_customers_lines d)
  else Raise TypeError.
Proof.
  unfold business_info_parts, pricing_lines, target_customers_lines. cbv zeta.
  rewrite !py_strings_app, !py_strings_map, !py_strings_raw.
  destruct (text_or_empty (field d (u8 "pricing_info")));
    destruct (text_or_empty (field d (u8 "target_customers"))); reflexivity.
Qed.

(** A key that holds something stands in a mapping that is not empty. *)
Lemma truthy_field_mapping (v : pyval) (key : pystr) :
  truthy (field (as_mapping v) key) = true -> truthy v = true.
Proof.
  destruct v as [| | | | | | [|x d]]; simpl; try discriminate; reflexivity.
Qed.

Lemma text_or_empty_mapping (v : pyval) (key : pystr) :
  text_or_empty (field (as_mapping v) key) = false -> truthy v = true.
Proof.
  unfold text_or_empty. intros H. apply (truthy_field_mapping v key).
  destruct (truthy (field (as_mapping v) key)); [reflexivity | discriminate].
Qed.

Lemma py_strings_collected (agent : Agent.t) :
  py_strings (collected_parts agent) =
  if text_or_empty (field (as_mapping (Agent.business_info agent)) (u8 "pricing_info"))
     && text_or_empty (field (as_mapping (Agent.business_info agent))
                         (u8 "target_customers"))
  then Ok (composed_lines agent)
  else Raise TypeError.
Proof.
  unfold collected_parts, composed_lines, knowledge_base_lines,
    knowledge_base_contents. cbv zeta.
  destruct (knowledge_base_included agent) eqn:K.
  - rewrite !py_strings_app, !py_strings_map, py_strings_business_info.
    destruct (text_or_empty _ && text_or_empty _); [| reflexivity].
    now rewrite <- !app_assoc.
  - rewrite !py_strings_app, !py_strings_map. simpl.
    unfold knowledge_base_included in K. apply orb_false_elim in K as [_ K].
    destruct (text_or_empty (field _ (u8 "pricing_info"))) eqn:P.
    + destruct (text_or_empty (field _ (u8 "target_customers"))) eqn:T;
        [reflexivity |].
      apply text_or_empty_mapping in T. congruence.
    + apply text_or_empty_mapping in P. congruence.
Qed.

(** *** The whole body *)

Lemma results_yields {A} (m : M BuildState A) st a ps :
  yields m st a ps -> results m st (Ok a).
Proof. intros [evs H]. now exists ps, evs. Qed.

Lemma results_fails {A} (m : M BuildState A) st :
  fails m st -> exists e, results m st (Raise e).
Proof. intros (e & ps & evs & H). now exists e, ps, evs. Qed.

Lemma results_bind {A B} (m : M BuildState A) (k : A -> M BuildState B) st a ps r :
  yields m st a ps ->
  (forall evs, results (k a) (advance ps evs st) r) ->
  results (bind m k) st r.
Proof.
  intros [evs Hm] Hk. destruct (Hk evs) as (qs & evs' & Hk').
  exists (ps ++ qs), (evs ++ evs'). unfold bind.
  now rewrite Hm, Hk', advance_advance.
Qed.

Lemma results_read_parts {B} (k : list pyval -> M BuildState B) st r :
  results (k (prompt_parts st)) st r -> results (bind read_parts k) st r.
Proof. exact (fun H => H). Qed.

Lemma results_lift_ok {A B} (a : A) (k : A -> M BuildState B) st r :
  results (k a) st r -> results (bind (lift (Ok a)) k) st r.
Proof. exact (fun H => H). Qed.

Lemma results_lift_raise {A B} (e : exn) (k : A -> M BuildState B) st :
  results (bind (lift (Raise e)) k) st (Raise e).
Proof. exists [], []. unfold bind, lift. now rewrite advance_nil. Qed.

Lemma results_with_prompt_parts {A} (m : M BuildState A) (w : World) (r : exc A) :
  results m {| prompt_parts := []; world := w |} r ->
  exists evs, with_prompt_parts m w = (r, logged evs w).
Proof.
  intros (ps & evs & H). exists evs. unfold with_prompt_parts. now rewrite H.
Qed.

Lemma results_company_name {B} (agent : Agent.t) (k : pyval -> M BuildState B) st r :
  results (k (company_name_value agent)) st r ->
  results (bind (company_name_of agent) k) st r.
Proof.
  unfold results, bind. now rewrite company_name_of_run.
Qed.

(** The five blocks in a row, for a company name that is text. *)
Lemma results_blocks {B} (agent : Agent.t) (s : pystr)
    (rest : M BuildState B) st r :
  company_name_value agent = PStr s ->
  text_or_empty (Agent.sales_script_text agent) = true ->
  (forall evs, results rest (advance (collected_parts agent) evs st) r) ->
  results (header_block agent (PStr s) ;;
           call_script_block agent ;;
           knowledge_base_block agent (PStr s) ;;
           append_lines (question_handling_lines s) ;;
           append_lines (critical_rules_lines s) ;;
           rest) st r.
Proof.
  intros Hs Hscript Hrest.
  eapply results_bind.
  { rewrite <- Hs. apply yields_header_block. }
  intros e1. eapply results_bind; [apply (yields_call_script_block _ _ Hscript) |].
  intros e2. eapply results_bind; [apply yields_knowledge_base_block |].
  intros e3. eapply results_bind; [apply yields_append_lines |].
  intros e4. eapply results_bind; [apply yields_append_lines |].
  intros e5. rewrite !advance_advance.
  unfold collected_parts in Hrest. rewrite Hs in Hrest. cbn [py_str] in Hrest.
  rewrite <- ?app_assoc. apply Hrest.
Qed.

Lemma well_formed_company_name (agent : Agent.t) :
  isinstance_str (company_name_value agent) = true ->
  exists s, company_name_value agent = PStr s.
Proof. destruct (company_name_value agent); try discriminate. now eexists. Qed.

Lemma build_prompt_well_formed (agent : Agent.t) (w : World) :
  well_formed agent = true ->
  exists evs,
    with_prompt_parts (build_prompt agent) w = (Ok (composed agent), logged evs w).
Proof.
  unfold well_formed. rewrite !andb_true_iff. intros [[[Hscript Hname] Hp] Ht].
  destruct (well_formed_company_name _ Hname) as [s Hs].
  apply results_with_prompt_parts.
  apply results_company_name. rewrite Hs. cbv zeta. cbn [py_str].
  apply (results_blocks agent s _ _ _ Hs Hscript). intros evs.
  apply results_read_parts. cbn [advance prompt_parts app].
  unfold py_join. rewrite py_strings_collected, Hp, Ht. cbn [andb].
  apply results_lift_ok. eapply results_yields.
  eapply yields_bind; [apply yields_logger | intros; apply yields_ret].
Qed.

Lemma fails_company_name {B} (agent : Agent.t) (k : pyval -> M BuildState B) st :
  fails (k (company_name_value agent)) st ->
  fails (bind (company_name_of agent) k) st.
Proof.
  unfold fails, bind. now rewrite company_name_of_run.
Qed.

(** A company name that is not the default comes from a mapping that is
    not empty, so the knowledge base is included. *)
Lemma company_name_knowledge_base (agent : Agent.t) :
  isinstance_str (company_name_value agent) = false ->
  knowledge_base_included agent = true.
Proof.
  unfold company_name_value, knowledge_base_included.
  destruct (Agent.business_info agent) as [| | | | | | [|x d]];
    simpl; try discriminate.
  intros _. apply orb_true_r.
Qed.

Lemma build_prompt_ill_formed (agent : Agent.t) (w : World) :
  well_formed agent = false ->
  exists e evs,
    with_prompt_parts (build_prompt agent) w = (Raise e, logged evs w).
Proof.
  intros Hwf.
  assert (exists e, results (build_prompt agent)
                      {| prompt_parts := []; world := w |} (Raise e)) as [e He].
  { unfold well_formed in Hwf.
    destruct (text_or_empty (Agent.sales_script_text agent)) eqn:Hscript.
    - destruct (isinstance_str (company_name_value agent)) eqn:Hname.
      + destruct (well_formed_company_name _ Hname) as [s Hs].
        exists TypeError. apply results_company_name. rewrite Hs.
        cbv zeta. cbn [py_str].
        apply (results_blocks agent s _ _ _ Hs Hscript). intros evs.
        apply results_read_parts. cbn [advance prompt_parts app].
        unfold py_join. rewrite py_strings_collected.
        cbn [andb] in Hwf.
        rewrite Hwf. apply results_lift_raise.
      + apply results_fails, fails_company_name. cbv zeta.
        eapply fails_bind_r; [apply yields_header_block | intros ?].
        eapply fails_bind_r;
          [apply (yields_call_script_block _ _ Hscript) | intros ?].
        apply fails_bind_l, fails_knowledge_base_block;
          [now apply company_name_knowledge_base | exact Hname].
    - apply results_fails, fails_company_name. cbv zeta.
      eapply fails_bind_r; [apply yields_header_block | intros ?].
      apply fails_bind_l, fails_call_script_block, Hscript. }
  destruct (results_with_prompt_parts _ _ _ He) as [evs H].
  now exists e, evs.
Qed.

(** [_build_system_prompt] returns [prompt_text], and all it does to the
    world is to log. *)
Lemma build_system_prompt_run (base_prompt : pystr) (agent_obj : option Agent.t)
    (w : World) :
  exists evs,
    _build_system_prompt base_prompt agent_obj w
    = (Ok (prompt_text base_prompt agent_obj), logged evs w).
Proof.
  unfold _build_system_prompt, try_except, prompt_text.
  destruct agent_obj as [agent|].
  - destruct (well_formed agent) eqn:Hwf.
    + destruct (build_prompt_well_formed agent w Hwf) as [evs H].
      exists evs. now rewrite H.
    + destruct (build_prompt_ill_formed agent w Hwf) as (e & evs & H).
      exists (evs ++ [ErrorBuilding e]). rewrite H.
      unfold bind, logger, ret. cbn. unfold logged. cbn.
      now rewrite app_assoc.
  - exists []. unfold ret. now rewrite logged_nil.
Qed.

(** Composition succeeds exactly for the well-formed agents. *)
Lemma composition_succeeds_iff (agent : Agent.t) (w : World) :
  (exists out, fst (with_prompt_parts (build_prompt agent) w) = Ok out)
  <-> well_formed agent = true.
Proof.
  split.
  - intros [out H]. destruct (well_formed agent) eqn:Hwf; [reflexivity |].
    destruct (build_prompt_ill_formed agent w Hwf) as (e & evs & E).
    rewrite E in H. discriminate H.
  - intros Hwf. destruct (build_prompt_well_formed agent w Hwf) as [evs E].
    exists (composed agent). now rewrite E.
Qed.

(** ** The prompt composer: theorems *)

Lemma join_cons (sep p : pystr) (rest : list pystr) :
  rest <> [] -> join sep (p :: rest) = p ++ sep ++ join sep rest.
Proof. destruct rest; [congruence | reflexivity]. Qed.

Lemma join_app (sep : pystr) (ls ms : list pystr) :
  ls <> [] -> ms <> [] ->
  join sep (ls ++ ms) = join sep ls ++ sep ++ join sep ms.
Proof.
  intros Hl Hm. induction ls as [|l ls IH]; [congruence |].
  destruct ls as [|l' ls].
  - simpl app. rewrite join_cons by exact Hm. reflexivity.
  - change ((l :: l' :: ls) ++ ms) with (l :: (l' :: ls) ++ ms).
    rewrite (join_cons sep l ((l' :: ls) ++ ms)) by (simpl; discriminate).
    rewrite (join_cons sep l (l' :: ls)) by discriminate.
    rewrite IH by discriminate. rewrite <- !app_assoc. reflexivity.
Qed.

(** Whatever precedes a non-empty run of lines, the joined text ends with
    that run joined. *)
Lemma join_app_suffix (sep : pystr) (ls ms : list pystr) :
  ms <> [] -> exists pre, join sep (ls ++ ms) = pre ++ join sep ms.
Proof.
  intros Hm. destruct ls as [|l ls].
  - now exists [].
  - exists (join sep (l :: ls) ++ sep).
    rewrite join_app; [now rewrite <- app_assoc | discriminate | exact Hm].
Qed.

(** C1: an agent that is there but has no sales script, no business
    info and no knowledge files gets exactly the header line (company
    name "our company"), the question-handling block and the
    critical-rules block, in that order, one newline between them; the
    text holds neither a CALL SCRIPT nor a KNOWLEDGE BASE section. *)
Theorem bare_agent_prompt (base_prompt : pystr) (name : pyval) (w : World) :
  let agent :=
    {| Agent.name := name; Agent.business_info := PNone;
       Agent.sales_script_text := PNone; Agent.knowledge_files := PNone |} in
  let out :=
    header_line (u8 "our company")
    ++ nl ++ join nl (question_handling_lines (u8 "our company"))
    ++ nl ++ join nl (critical_rules_lines (u8 "our company")) in
  fst (_build_system_prompt base_prompt (Some agent) w) = Ok out
  /\ contains (u8 "CALL SCRIPT") out = false
  /\ contains (u8 "KNOWLEDGE BASE:") out = false.
Proof.
  intros agent out.
  destruct (build_system_prompt_run base_prompt (Some agent) w) as [evs H].
  rewrite H. repeat split; vm_compute; reflexivity.
Qed.

Lemma question_handling_lines_not_nil (s : pystr) : question_handling_lines s <> [].
Proof. discriminate. Qed.

Lemma critical_rules_lines_not_nil (s : pystr) : critical_rules_lines s <> [].
Proof. discriminate. Qed.

(** C2, amended: when composition does not fail, a sales script that is a
    non-empty string stands verbatim in the output, after the header line
    and before the question-handling block. *)
Theorem script_in_prompt (base_prompt : pystr) (agent : Agent.t) (script : pystr)
    (w : World) :
  well_formed agent = true ->
  Agent.sales_script_text agent = PStr script ->
  script <> [] ->
  let company_name := py_str (company_name_value agent) in
  exists pre post,
    fst (_build_system_prompt base_prompt (Some agent) w)
    = Ok (header_line company_name ++ pre ++ script ++ post
          ++ join nl (question_handling_lines company_name)
          ++ nl ++ join nl (critical_rules_lines company_name)).
Proof.
  intros Hwf Hs Hne company_name.
  destruct (build_system_prompt_run base_prompt (Some agent) w) as [evs H].
  rewrite H. cbn [fst prompt_text]. rewrite Hwf.
  unfold composed, composed_lines, call_script_lines. rewrite Hs.
  destruct script as [|c s]; [congruence |].
  fold company_name.
  set (tail := question_handling_lines company_name ++ critical_rules_lines company_name).
  assert (Htail : tail <> []).
  { unfold tail. intros E. apply app_eq_nil in E as [E _].
    now apply question_handling_lines_not_nil in E. }
  destruct (join_app_suffix nl (knowledge_base_lines agent) tail Htail)
    as [pre2 Hpre2].
  unfold header_lines. cbv zeta. fold company_name.
  set (desc := if truthy _ then _ else _).
  exists (nl ++ join nl (desc ++ call_script_preamble) ++ nl ++ nl), (nl ++ pre2).
  f_equal.
  change ((header_line company_name :: desc)
          ++ (call_script_preamble ++ [nl ++ c :: s])
          ++ knowledge_base_lines agent ++ tail)
    with (header_line company_name
          :: (desc ++ call_script_preamble ++ [nl ++ c :: s]
              ++ knowledge_base_lines agent ++ tail)).
  rewrite join_cons
    by (intros E; apply app_eq_nil in E as [_ E]; discriminate E).
  rewrite (app_assoc desc), join_app;
    [| intros E; apply app_eq_nil in E as [_ E]; discriminate E | discriminate].
  change ([nl ++ c :: s] ++ knowledge_base_lines agent ++ tail)
    with ((nl ++ c :: s) :: (knowledge_base_lines agent ++ tail)).
  rewrite join_cons
    by (intros E; apply app_eq_nil in E as [_ E]; now apply Htail).
  rewrite Hpre2. unfold tail.
  rewrite (join_app nl (question_handling_lines company_name)
             (critical_rules_lines company_name)
             (question_handling_lines_not_nil _) (critical_rules_lines_not_nil _)).
  rewrite <- !app_assoc. reflexivity.
Qed.

(** C3, amended: when composition does not fail, the knowledge-base
    section is there if and only if knowledge_files or business_info is
    truthy (an empty mapping counts as absent); it holds, after its
    banner, the website, the industry, the product features (a bullet for
    each element of a sequence, the text itself for a text), the pricing
    info, the target customers, each only if its value is truthy, then for
    each knowledge file with a truthy value the label in upper case with
    spaces for underscores and the value as text. *)
Theorem knowledge_base_section (base_prompt : pystr) (agent : Agent.t) (w : World) :
  well_formed agent = true ->
  let company_name := py_str (company_name_value agent) in
  let biz := as_mapping (Agent.business_info agent) in
  let files := as_mapping (Agent.knowledge_files agent) in
  let section :=
    if truthy (Agent.knowledge_files agent) || truthy (Agent.business_info agent)
    then knowledge_base_banner company_name
         ++ website_lines biz ++ industry_lines biz ++ product_features_lines biz
         ++ pricing_lines biz ++ target_customers_lines biz
         ++ flat_map knowledge_file_lines files
    else [] in
  fst (_build_system_prompt base_prompt (Some agent) w)
  = Ok (join nl (header_lines agent ++ call_script_lines agent ++ section
                 ++ question_handling_lines company_name
                 ++ critical_rules_lines company_name)).
Proof.
  intros Hwf company_name biz files section.
  destruct (build_system_prompt_run base_prompt (Some agent) w) as [evs H].
  rewrite H. cbn [fst prompt_text]. rewrite Hwf. reflexivity.
Qed.

(** C4: [_build_system_prompt] never raises; without an agent it returns
    the base prompt, and when the composition raises, whatever the
    error, it returns the base prompt as it was given. *)
Theorem build_system_prompt_never_raises (base_prompt : pystr)
    (agent_obj : option Agent.t) (w : World) :
  (exists out, fst (_build_system_prompt base_prompt agent_obj w) = Ok out)
  /\ fst (_build_system_prompt base_prompt None w) = Ok base_prompt
  /\ (forall agent e,
        fst (with_prompt_parts (build_prompt agent) w) = Raise e ->
        fst (_build_system_prompt base_prompt (Some agent) w) = Ok base_prompt).
Proof.
  split; [| split].
  - destruct (build_system_prompt_run base_prompt agent_obj w) as [evs H].
    rewrite H. now eexists.
  - reflexivity.
  - intros agent e He. unfold _build_system_prompt, try_except.
    destruct (with_prompt_parts (build_prompt agent) w) as [[out|e'] w'];
      [discriminate | reflexivity].
Qed.

(** C5: the output of [_build_system_prompt] is a function of the base
    prompt and the agent alone: it is the same in every world, the same
    when the call is repeated, and the call neither reads the clock nor
    sends a request. *)
Theorem build_system_prompt_deterministic (base_prompt : pystr)
    (agent_obj : option Agent.t) (w w' : World) :
  fst (_build_system_prompt base_prompt agent_obj w)
  = fst (_build_system_prompt base_prompt agent_obj w')
  /\ fst (_build_system_prompt base_prompt agent_obj
            (snd (_build_system_prompt base_prompt agent_obj w)))
     = fst (_build_system_prompt base_prompt agent_obj w)
  /\ ticks (snd (_build_system_prompt base_prompt agent_obj w)) = ticks w
  /\ sent (snd (_build_system_prompt base_prompt agent_obj w)) = sent w.
Proof.
  destruct (build_system_prompt_run base_prompt agent_obj w) as [evs H].
  destruct (build_system_prompt_run base_prompt agent_obj w') as [evs' H'].
  destruct (build_system_prompt_run base_prompt agent_obj (logged evs w))
    as [evs'' H''].
  rewrite H, H'. cbn [fst snd]. rewrite H''. repeat split.
Qed.

Lemma for_each_skip {S A} (body : A -> M S unit) (x : A) (before after : list A)
    (s : S) :
  (forall s', body x s' = (Ok tt, s')) ->
  for_each (before ++ x :: after) body s = for_each (before ++ after) body s.
Proof.
  intros Hx. revert s. induction before as [|b before IH]; intros s; simpl.
  - unfold bind. now rewrite Hx.
  - unfold bind. destruct (body b s) as [[[]|e] s']; [apply IH | reflexivity].
Qed.

Lemma falsy_knowledge_file (key : pystr) (value : pyval)
    (before after : list (pystr * pyval)) :
  truthy value = false ->
  flat_map knowledge_file_lines (before ++ (key, value) :: after)
  = flat_map knowledge_file_lines (before ++ after).
Proof.
  intros Hv. rewrite !flat_map_app. cbn [flat_map knowledge_file_lines].
  now rewrite Hv.
Qed.

(** C10: the optional sections of [_build_system_prompt] are gated on
    truthiness, not on presence, and an empty value makes nothing fail.
    With the empty string for a script the output is the one composed
    of the header, the knowledge base and the two closing blocks, with no
    call-script section, and whether it is composed depends on the
    business info alone.  With empty mappings for business info and
    knowledge files the output has no knowledge-base section, and the
    company is "our company".  A knowledge file whose value is falsy
    gives no line, neither label nor value: the section holds the lines
    of the other files only, and when there are other files the output
    is the one for the agent without that entry.  And the agent whose
    three optional fields are there and empty gets the bare prompt. *)
Theorem sections_gated_on_truthiness (base_prompt : pystr) (agent : Agent.t)
    (w : World) :
  let out := fst (_build_system_prompt base_prompt (Some agent) w) in
  let company_name := py_str (company_name_value agent) in
  let biz := as_mapping (Agent.business_info agent) in
  (Agent.sales_script_text agent = PStr [] ->
   out = Ok (if isinstance_str (company_name_value agent)
                && text_or_empty (field biz (u8 "pricing_info"))
                && text_or_empty (field biz (u8 "target_customers"))
             then join nl
                    (header_lines agent ++ knowledge_base_lines agent
                     ++ question_handling_lines company_name
                     ++ critical_rules_lines company_name)
             else base_prompt))
  /\ (Agent.business_info agent = PDict [] ->
      Agent.knowledge_files agent = PDict [] ->
      out = Ok (if text_or_empty (Agent.sales_script_text agent)
                then join nl
                       ([ header_line (u8 "our company") ]
                        ++ call_script_lines agent
                        ++ question_handling_lines (u8 "our company")
                        ++ critical_rules_lines (u8 "our company"))
                else base_prompt))
  /\ (forall before key value after,
        Agent.knowledge_files agent = PDict (before ++ (key, value) :: after) ->
        truthy value = false ->
        out = Ok (if well_formed agent
                  then join nl
                         (header_lines agent ++ call_script_lines agent
                          ++ knowledge_base_banner company_name
                          ++ (website_lines biz ++ industry_lines biz
                              ++ product_features_lines biz ++ pricing_lines biz
                              ++ target_customers_lines biz)
                          ++ flat_map knowledge_file_lines (before ++ after)
                          ++ question_handling_lines company_name
                          ++ critical_rules_lines company_name)
                  else base_prompt)
        /\ (before ++ after <> [] ->
            out = fst (_build_system_prompt base_prompt
                         (Some {| Agent.name := Agent.name agent;
                                  Agent.business_info := Agent.business_info agent;
                                  Agent.sales_script_text :=
                                    Agent.sales_script_text agent;
                                  Agent.knowledge_files :=
                                    PDict (before ++ after) |}) w)))
  /\ (forall name,
        fst (_build_system_prompt base_prompt
               (Some {| Agent.name := name; Agent.business_info := PDict [];
                        Agent.sales_script_text := PStr [];
                        Agent.knowledge_files := PDict [] |}) w)
        = Ok (header_line (u8 "our company")
              ++ nl ++ join nl (question_handling_lines (u8 "our company"))
              ++ nl ++ join nl (critical_rules_lines (u8 "our company")))).
Proof.
  intros out company_name biz. unfold out.
  destruct (build_system_prompt_run base_prompt (Some agent) w) as [evs H].
  rewrite H. clear H. cbn [fst prompt_text].
  split; [| split; [| split]].
  - intros Hs. unfold well_formed, composed, composed_lines, call_script_lines.
    rewrite Hs. cbn [text_or_empty truthy negb orb andb app]. reflexivity.
  - intros Hb Hk.
    unfold well_formed, composed, composed_lines, header_lines,
      knowledge_base_lines, knowledge_base_included, company_name_value.
    rewrite Hb, Hk. cbv zeta.
    cbn [as_mapping lookup field truthy isinstance_str text_or_empty negb orb
           andb py_str app].
    now rewrite !andb_true_r.
  - intros before key value after Hk Hv. split.
    + unfold composed, composed_lines, knowledge_base_lines,
        knowledge_base_included, knowledge_base_contents.
      rewrite Hk. cbn [as_mapping].
      replace (truthy (PDict (before ++ (key, value) :: after))) with true
        by (destruct before; reflexivity).
      cbn [orb]. rewrite (falsy_knowledge_file key value before after Hv).
      fold biz. fold company_name. now rewrite <- !app_assoc.
    + intros Hne.
      match goal with
      | |- _ = fst (_build_system_prompt _ (Some ?a) _) =>
          destruct (build_system_prompt_run base_prompt (Some a) w) as [evs' H'];
          rewrite H'; clear H'
      end.
      cbn [fst prompt_text].
      unfold well_formed, composed, composed_lines, header_lines,
        call_script_lines, knowledge_base_lines, knowledge_base_included,
        knowledge_base_contents, company_name_value.
      cbn [Agent.name Agent.business_info Agent.sales_script_text
             Agent.knowledge_files].
      rewrite Hk. cbn [as_mapping].
      replace (truthy (PDict (before ++ (key, value) :: after))) with true
        by (destruct before; reflexivity).
      replace (truthy (PDict (before ++ after))) with true
        by (destruct (before ++ after); [congruence | reflexivity]).
      now rewrite (falsy_knowledge_file key value before after Hv).
  - intros name.
    destruct (build_system_prompt_run base_prompt
                (Some {| Agent.name := name; Agent.business_info := PDict [];
                         Agent.sales_script_text := PStr [];
                         Agent.knowledge_files := PDict [] |}) w) as [evs' H'].
    rewrite H'. vm_compute. reflexivity.
Qed.

(** ** The remote client: theorems *)

Lemma extends_refl (w : World) : extends w w.
Proof. repeat split. exists []. now rewrite app_nil_r. Qed.

Lemma extends_trans (w1 w2 w3 : World) :
  extends w1 w2 -> extends w2 w3 -> extends w1 w3.
Proof.
  intros (R1 & C1 & m1 & S1) (R2 & C2 & m2 & S2). repeat split; try congruence.
  exists (m1 ++ m2). now rewrite S2, S1, app_assoc.
Qed.

Lemma extends_logged (evs : list LogEvent) (w : World) : extends w (logged evs w).
Proof. repeat split. exists []. simpl. now rewrite app_nil_r. Qed.

Lemma grows_ret {A} (a : A) : grows (@ret World A a).
Proof. intros w. apply extends_refl. Qed.

Lemma grows_lift {A} (r : exc A) : grows (@lift World A r).
Proof. intros w. apply extends_refl. Qed.

Lemma grows_logger (ev : LogEvent) : grows (logger ev).
Proof. intros w. apply (extends_logged [ev]). Qed.

Lemma grows_datetime_now : grows datetime_now.
Proof. intros w. repeat split. exists []. simpl. now rewrite app_nil_r. Qed.

Lemma grows_requests_send (req : HttpRequest) : grows (requests_send req).
Proof.
  intros w. unfold requests_send.
  destruct (remote w (length (sent w)) req); repeat split; now exists [req].
Qed.

Lemma grows_bind {A B} (m : M World A) (k : A -> M World B) :
  grows m -> (forall a, grows (k a)) -> grows (bind m k).
Proof.
  intros Hm Hk w. unfold bind. specialize (Hm w).
  destruct (m w) as [[a|e] w1]; [| exact Hm].
  eapply extends_trans; [exact Hm | apply Hk].
Qed.

Lemma grows_try_except {A} (m : M World A) (handler : exn -> M World A) :
  grows m -> (forall e, grows (handler e)) -> grows (try_except m handler).
Proof.
  intros Hm Hh w. unfold try_except. specialize (Hm w).
  destruct (m w) as [[a|e] w1]; [exact Hm |].
  eapply extends_trans; [exact Hm | apply Hh].
Qed.

Lemma grows_build_system_prompt (base_prompt : pystr) (agent_obj : option Agent.t) :
  grows (_build_system_prompt base_prompt agent_obj).
Proof.
  intros w. destruct (build_system_prompt_run base_prompt agent_obj w) as [evs H].
  rewrite H. apply extends_logged.
Qed.

Create HintDb grows.
#[local] Hint Resolve grows_ret grows_lift grows_logger grows_datetime_now
  grows_requests_send grows_build_system_prompt : grows.

Lemma grows_create_agent_handler (e : exn) : grows (create_agent_handler e).
Proof. destruct e; apply grows_bind; auto with grows. Qed.

Lemma grows_handle_response (retry : pystr -> M World pyval) (name : pystr)
    (response : Response) :
  (forall unique_name, grows (retry unique_name)) ->
  grows (handle_response retry name response).
Proof.
  intros Hretry. unfold handle_response.
  apply grows_bind; [auto with grows | intros _].
  destruct (status_code response =? 201)%Z;
    [| destruct (status_code response =? 409)%Z].
  - repeat (apply grows_bind; [auto with grows | intros ?]). auto with grows.
  - repeat (apply grows_bind; [auto with grows | intros ?]). apply Hretry.
  - apply grows_bind; auto with grows.
Qed.

Lemma grows_create_agent (depth : nat) (self : HumeAgentService)
    (name system_prompt voice_name language : pystr) (agent_obj : option Agent.t) :
  grows (create_agent depth self name system_prompt voice_name language agent_obj).
Proof.
  revert name. induction depth as [|depth IH]; intros name; cbn [create_agent].
  - auto with grows.
  - apply grows_try_except; [| apply grows_create_agent_handler].
    apply grows_bind; [auto with grows | intros enhanced_prompt]. cbv zeta.
    apply grows_bind; [auto with grows | intros _].
    apply grows_bind; [auto with grows | intros response].
    apply grows_handle_response. intros unique_name. apply IH.
Qed.

(** A call with room on the stack builds the prompt, logs, and sends
    the create request; the rest depends on what comes back. *)
Lemma create_agent_attempt (depth : nat) (self : HumeAgentService)
    (name system_prompt voice_name language : pystr)
    (agent_obj : option Agent.t) (w : World) :
  exists evs,
    create_agent (S depth) self name system_prompt voice_name language agent_obj w
    = try_except
        (response <- requests_send
                       (create_request self name
                          (prompt_text system_prompt agent_obj) voice_name language) ;;
         handle_response
           (fun unique_name =>
              create_agent depth self unique_name system_prompt voice_name
                language agent_obj)
           name response)
        create_agent_handler (logged evs w).
Proof.
  destruct (build_system_prompt_run system_prompt agent_obj w) as [evs H].
  eexists. cbn [create_agent]. unfold try_except at 1 2. unfold bind at 1.
  rewrite H. cbv zeta. unfold bind at 1. unfold logger at 1.
  cbn [fst snd remote clock sent ticks log logged].
  rewrite <- app_assoc. reflexivity.
Qed.

Lemma create_agent_handler_run (e : exn) (w : World) :
  exists ev, create_agent_handler e w = (Ok PNone, logged [ev] w).
Proof. destruct e; eexists; reflexivity. Qed.

(** When the provider does not answer 409, the call ends after its one
    request. *)
Lemma create_agent_no_conflict (depth : nat) (self : HumeAgentService)
    (name system_prompt voice_name language : pystr)
    (agent_obj : option Agent.t) (w : World) :
  let req := create_request self name (prompt_text system_prompt agent_obj)
               voice_name language in
  conflict (remote w (length (sent w)) req) = false ->
  exists v evs,
    create_agent (S depth) self name system_prompt voice_name language agent_obj w
    = (Ok v, logged evs (sent_to req w)).
Proof.
  intros req Hc.
  destruct (create_agent_attempt depth self name system_prompt voice_name
              language agent_obj w) as [evs H].
  rewrite H. clear H. fold req. unfold try_except, bind at 1, requests_send.
  cbn [remote sent logged].
  destruct (remote w (length (sent w)) req) as [r|e]; cbn [conflict] in Hc.
  - unfold handle_response. rewrite Hc.
    unfold bind, lift, logger, ret. cbn [fst snd remote clock sent ticks log logged].
    destruct (status_code r =? 201)%Z.
    + destruct (body_json r) as [data|e].
      * destruct (py_get data (u8 "id") PNone) as [config_id|e].
        -- eexists config_id, _. unfold logged, sent_to.
           cbn [remote clock sent ticks log]. rewrite <- !app_assoc. reflexivity.
        -- destruct (create_agent_handler_run e
                       (logged (evs ++ [InfoStatus (status_code r)]) (sent_to req w)))
             as [ev He].
           exists PNone, ((evs ++ [InfoStatus (status_code r)]) ++ [ev]).
           unfold logged, sent_to in *. cbn [remote clock sent ticks log] in *. repeat rewrite <- app_assoc in He; repeat rewrite <- app_assoc.
           rewrite He. reflexivity.
      * destruct (create_agent_handler_run e
                    (logged (evs ++ [InfoStatus (status_code r)]) (sent_to req w)))
          as [ev He].
        exists PNone, ((evs ++ [InfoStatus (status_code r)]) ++ [ev]).
        unfold logged, sent_to in *. cbn [remote clock sent ticks log] in *. repeat rewrite <- app_assoc in He; repeat rewrite <- app_assoc.
        rewrite He. reflexivity.
    + eexists PNone, _. unfold logged, sent_to.
      cbn [remote clock sent ticks log]. rewrite <- !app_assoc. reflexivity.
  - destruct (create_agent_handler_run e (logged evs (sent_to req w))) as [ev He].
    exists PNone, (evs ++ [ev]).
    unfold logged, sent_to in *. cbn [remote clock sent ticks log] in *. repeat rewrite <- app_assoc in He; repeat rewrite <- app_assoc.
    rewrite He. reflexivity.
Qed.

Lemma remote_logged evs w : remote (logged evs w) = remote w.
Proof. reflexivity. Qed.

Lemma sent_logged evs w : sent (logged evs w) = sent w.
Proof. reflexivity. Qed.

(** C6: with the response 201 and a body whose id is a non-empty
    string, [create_agent] returns that id; with any status other than
    201 and 409 (500 among them) it returns None; and when the transport
    raises (a timeout, a connection failure, anything else) it returns
    None and raises nothing. *)
Theorem create_agent_outcomes (depth : nat) (self : HumeAgentService)
    (name system_prompt voice_name language : pystr)
    (agent_obj : option Agent.t) (w : World) :
  let req := create_request self name (prompt_text system_prompt agent_obj)
               voice_name language in
  let outcome := remote w (length (sent w)) req in
  let result :=
    fst (create_agent (S depth) self name system_prompt voice_name language
           agent_obj w) in
  (forall r data id,
      outcome = Answers r -> status_code r = 201%Z ->
      body_json r = Ok data -> py_get data (u8 "id") PNone = Ok (PStr id) ->
      id <> [] ->
      result = Ok (PStr id) /\ truthy (PStr id) = true)
  /\ (forall r,
        outcome = Answers r ->
        status_code r <> 201%Z -> status_code r <> 409%Z ->
        result = Ok PNone)
  /\ (forall e, outcome = Fails e -> result = Ok PNone).
Proof.
  intros req outcome result. unfold result, outcome.
  destruct (create_agent_attempt depth self name system_prompt voice_name
              language agent_obj w) as [evs H].
  rewrite H. clear H. fold req.
  split; [| split]; intros *; intros Ho; unfold outcome in Ho;
    unfold try_except, bind at 1, requests_send;
    rewrite remote_logged, !sent_logged, Ho.
  - intros Hs Hb Hg Hid.
    unfold handle_response, bind, lift, logger, ret. rewrite Hs, Hb, Hg.
    split; [reflexivity | destruct id; [congruence | reflexivity]].
  - intros H201 H409.
    unfold handle_response, bind, lift, logger, ret.
    destruct (Z.eqb_spec (status_code r) 201); [contradiction |].
    destruct (Z.eqb_spec (status_code r) 409); [contradiction |].
    reflexivity.
  - match goal with
    | |- fst (create_agent_handler e ?w') = _ =>
        destruct (create_agent_handler_run e w') as [ev He]; now rewrite He
    end.
Qed.

Lemma timestamp_length (t : datetime) : length (strftime_YmdHMS t) = 14.
Proof. reflexivity. Qed.

Lemma unique_name_differs (name : pystr) (t : datetime) :
  name ++ u8 "_" ++ strftime_YmdHMS t <> name.
Proof.
  intros E. apply (f_equal (@length N)) in E.
  rewrite !length_app, timestamp_length in E. lia.
Qed.

(** C7, amended: when the first request is answered 409 and the
    follow-up is not, [create_agent] sends exactly one follow-up create
    request, under the original name with an underscore and the
    timestamp of the clock appended, which is never the original name:
    the transport sees these two requests and no other.  (A follow-up
    answered 409 is retried in the same way.) *)
Theorem conflict_retried_under_new_name (depth : nat) (self : HumeAgentService)
    (name system_prompt voice_name language : pystr)
    (agent_obj : option Agent.t) (w : World) (r : Response) :
  let enhanced_prompt := prompt_text system_prompt agent_obj in
  let first := create_request self name enhanced_prompt voice_name language in
  let unique_name := name ++ u8 "_" ++ strftime_YmdHMS (clock w (S (ticks w))) in
  let second :=
    create_request self unique_name enhanced_prompt voice_name language in
  remote w (length (sent w)) first = Answers r ->
  status_code r = 409%Z ->
  conflict (remote w (S (length (sent w))) second) = false ->
  sent (snd (create_agent (S (S depth)) self name system_prompt voice_name
               language agent_obj w))
  = sent w ++ [first; second]
  /\ unique_name <> name.
Proof.
  intros enhanced_prompt first unique_name second Ho Hs Hc.
  split; [| apply unique_name_differs].
  destruct (create_agent_attempt (S depth) self name system_prompt voice_name
              language agent_obj w) as [evs H].
  rewrite H. clear H. fold enhanced_prompt first.
  unfold try_except at 1. unfold bind at 1. unfold requests_send at 1.
  rewrite remote_logged, !sent_logged. rewrite Ho.
  unfold handle_response. unfold bind at 1. unfold logger at 1.
  rewrite Hs. cbn [Z.eqb Pos.eqb].
  unfold bind at 1. unfold datetime_now at 1.
  unfold bind at 1. unfold logger at 1.
  unfold bind at 1. unfold datetime_now at 1.
  cbn [remote clock sent ticks log logged]. fold unique_name.
  match goal with
  | |- context [create_agent (S depth) self unique_name _ _ _ _ ?w3] =>
      destruct (create_agent_no_conflict depth self unique_name system_prompt
                  voice_name language agent_obj w3) as (v & evs' & H3)
  end.
  - cbn [remote sent]. fold enhanced_prompt second.
    rewrite length_app. cbn [length]. now rewrite Nat.add_1_r.
  - rewrite H3. cbn [snd sent logged sent_to]. fold enhanced_prompt second.
    now rewrite <- app_assoc.
Qed.

(** A request sent inside a [try] is the next one the transport sees,
    whatever the rest of the call adds. *)
Lemma try_send_sent {A} (req : HttpRequest) (k : Response -> M World A)
    (handler : exn -> M World A) (w : World) :
  (forall r, grows (k r)) -> (forall e, grows (handler e)) ->
  exists more,
    sent (snd (try_except (bind (requests_send req) k) handler w))
    = sent w ++ req :: more.
Proof.
  intros Hk Hh.
  assert (E : extends (sent_to req w)
                (snd (try_except (bind (requests_send req) k) handler w))).
  { unfold try_except, bind, requests_send.
    destruct (remote w (length (sent w)) req) as [r|e].
    - fold (sent_to req w). specialize (Hk r (sent_to req w)).
      destruct (k r (sent_to req w)) as [[a|e] w']; [exact Hk |].
      eapply extends_trans; [exact Hk | apply Hh].
    - fold (sent_to req w). apply Hh. }
  destruct E as (_ & _ & more & E). exists more. rewrite E.
  cbn [sent sent_to]. now rewrite <- app_assoc.
Qed.

Lemma payload_description_field (name enhanced_prompt voice_name language : pystr) :
  py_get (create_payload name enhanced_prompt voice_name language)
    (u8 "description") PNone
  = Ok (PStr (if 200 <? length enhanced_prompt
              then firstn 200 enhanced_prompt ++ u8 "..."
              else enhanced_prompt)).
Proof. vm_compute. reflexivity. Qed.

(** C8: the payload [create_agent] sends carries, as its description,
    the whole enhanced prompt when that is at most 200 characters long,
    and its first 200 characters followed by "..." when it is longer. *)
Theorem payload_description (depth : nat) (self : HumeAgentService)
    (name system_prompt voice_name language : pystr)
    (agent_obj : option Agent.t) (w : World) :
  let enhanced_prompt := prompt_text system_prompt agent_obj in
  let payload := create_payload name enhanced_prompt voice_name language in
  fst (_build_system_prompt system_prompt agent_obj w) = Ok enhanced_prompt
  /\ (exists more,
        sent (snd (create_agent (S depth) self name system_prompt voice_name
                     language agent_obj w))
        = sent w
          ++ {| method := POST; url := base_url self ++ u8 "/evi/configs";
                json := Some payload; headers := service_headers self;
                timeout := 10 |} :: more)
  /\ py_get payload (u8 "description") PNone
     = Ok (PStr (if length enhanced_prompt <=? 200
                 then enhanced_prompt
                 else firstn 200 enhanced_prompt ++ u8 "...")).
Proof.
  intros enhanced_prompt payload. split; [| split].
  - destruct (build_system_prompt_run system_prompt agent_obj w) as [evs H].
    now rewrite H.
  - destruct (create_agent_attempt depth self name system_prompt voice_name
                language agent_obj w) as [evs H].
    rewrite H.
    destruct (try_send_sent
                (create_request self name enhanced_prompt voice_name language)
                (handle_response
                   (fun unique_name =>
                      create_agent depth self unique_name system_prompt
                        voice_name language agent_obj) name)
                create_agent_handler (logged evs w)) as [more Hm].
    + intros r. apply grows_handle_response. intros unique_name.
      apply grows_create_agent.
    + apply grows_create_agent_handler.
    + exists more. exact Hm.
  - unfold payload. rewrite payload_description_field.
    rewrite Nat.ltb_antisym. now destruct (length enhanced_prompt <=? 200).
Qed.

(** C9: [update_agent] called with none of the optional fields returns
    False and sends no request. *)
Theorem update_agent_without_fields (self : HumeAgentService) (config_id : pystr)
    (w : World) :
  fst (update_agent self config_id PNone PNone PNone PNone w) = Ok false
  /\ sent (snd (update_agent self config_id PNone PNone PNone PNone w)) = sent w.
Proof. split; reflexivity. Qed.

(** ** More of the prompt composer *)

(** X1: with an agent, the output is the composed text when the fields
    the composition reads as text are text (or empty), and the base
    prompt otherwise. *)
Theorem prompt_is_composed_or_base (base_prompt : pystr) (agent : Agent.t)
    (w : World) :
  fst (_build_system_prompt base_prompt (Some agent) w)
  = Ok (if well_formed agent then composed agent else base_prompt).
Proof.
  destruct (build_system_prompt_run base_prompt (Some agent) w) as [evs H].
  now rewrite H.
Qed.

Lemma ill_formed_gives_base (base_prompt : pystr) (agent : Agent.t) (w : World) :
  well_formed agent = false ->
  fst (_build_system_prompt base_prompt (Some agent) w) = Ok base_prompt.
Proof.
  intros Hwf.
  destruct (build_system_prompt_run base_prompt (Some agent) w) as [evs H].
  rewrite H. cbn [fst prompt_text]. now rewrite Hwf.
Qed.

(** X2: three ways to lose the composition.  A company name that is
    there and is no string (a null, a number), a sales script that is
    truthy and no string, a pricing info or target customers entry that is
    truthy and no string: each makes [_build_system_prompt] return the
    base prompt. *)
Theorem fallback_on_ill_typed_fields (base_prompt : pystr) (agent : Agent.t)
    (w : World) :
  let out := fst (_build_system_prompt base_prompt (Some agent) w) in
  (forall d v,
      Agent.business_info agent = PDict d ->
      lookup d (u8 "company_name") = Some v ->
      isinstance_str v = false ->
      out = Ok base_prompt)
  /\ (truthy (Agent.sales_script_text agent) = true ->
      isinstance_str (Agent.sales_script_text agent) = false ->
      out = Ok base_prompt)
  /\ (forall d key,
        Agent.business_info agent = PDict d ->
        key = u8 "pricing_info" \/ key = u8 "target_customers" ->
        truthy (field d key) = true ->
        isinstance_str (field d key) = false ->
        out = Ok base_prompt).
Proof.
  intros out. unfold out. split; [| split].
  - intros d v Hb Hl Hv. apply ill_formed_gives_base.
    unfold well_formed, company_name_value. rewrite Hb. cbn [as_mapping].
    rewrite Hl, Hv. now rewrite andb_false_r.
  - intros Ht Hs. apply ill_formed_gives_base.
    unfold well_formed, text_or_empty. now rewrite Ht, Hs.
  - intros d key Hb Hk Ht Hs. apply ill_formed_gives_base.
    unfold well_formed. rewrite Hb. cbn [as_mapping].
    assert (E : text_or_empty (field d key) = false)
      by (unfold text_or_empty; now rewrite Ht, Hs).
    destruct Hk as [-> | ->]; rewrite E;
      [now rewrite andb_false_r | apply andb_false_r].
Qed.

(** X3: whenever the composition succeeds, the output begins with the
    header line, naming the company ("our company" when business info
    holds no company_name), and ends with the question-handling block
    followed by the critical-rules block, whatever sections stand in
    between. *)
Theorem prompt_frame (base_prompt : pystr) (agent : Agent.t) (w : World) :
  well_formed agent = true ->
  let company_name := py_str (company_name_value agent) in
  (exists middle,
      fst (_build_system_prompt base_prompt (Some agent) w)
      = Ok (header_line company_name ++ middle
            ++ join nl (question_handling_lines company_name)
            ++ nl ++ join nl (critical_rules_lines company_name)))
  /\ (lookup (as_mapping (Agent.business_info agent)) (u8 "company_name") = None ->
      company_name = u8 "our company").
Proof.
  intros Hwf company_name. split.
  - destruct (build_system_prompt_run base_prompt (Some agent) w) as [evs H].
    rewrite H. cbn [fst prompt_text]. rewrite Hwf.
    unfold composed, composed_lines, header_lines. cbv zeta. fold company_name.
    set (desc := if truthy _ then _ else _).
    set (tail := question_handling_lines company_name
                 ++ critical_rules_lines company_name).
    assert (Htail : tail <> []).
    { unfold tail. intros E. apply app_eq_nil in E as [E _].
      now apply question_handling_lines_not_nil in E. }
    match goal with
    | |- context [join nl ?l] =>
        assert (E : l = header_line company_name
                        :: (desc ++ call_script_lines agent
                            ++ knowledge_base_lines agent) ++ tail)
          by (cbn [app]; now rewrite <- !app_assoc);
        rewrite E; clear E
    end.
    rewrite join_cons
      by (intros E; apply app_eq_nil in E as [_ E]; now apply Htail).
    destruct (join_app_suffix nl
                (desc ++ call_script_lines agent ++ knowledge_base_lines agent)
                tail Htail) as [pre Hpre].
    rewrite Hpre. unfold tail.
    rewrite (join_app nl (question_handling_lines company_name)
               (critical_rules_lines company_name)
               (question_handling_lines_not_nil _)
               (critical_rules_lines_not_nil _)).
    exists (nl ++ pre). now rewrite <- !app_assoc.
  - intros Hn. unfold company_name, company_name_value. now rewrite Hn.
Qed.

Lemma join_line (sep x : pystr) (ls ms : list pystr) :
  join sep (ls ++ x :: ms) = before_line sep ls ++ x ++ after_line sep ms.
Proof.
  assert (T : join sep (x :: ms) = x ++ after_line sep ms).
  { destruct ms; simpl; [now rewrite app_nil_r | reflexivity]. }
  destruct ls as [|l ls]; [exact T |].
  rewrite join_app by discriminate. rewrite T. unfold before_line.
  now rewrite <- !app_assoc.
Qed.

(** X4: when the composition succeeds for an agent with a script and a
    knowledge base, the script stands before the knowledge-base title. *)
Theorem script_before_knowledge_base (base_prompt : pystr) (agent : Agent.t)
    (script : pystr) (w : World) :
  well_formed agent = true ->
  Agent.sales_script_text agent = PStr script ->
  script <> [] ->
  knowledge_base_included agent = true ->
  exists pre middle post,
    fst (_build_system_prompt base_prompt (Some agent) w)
    = Ok (pre ++ script ++ middle
          ++ (upper (py_str (company_name_value agent)) ++ u8 " KNOWLEDGE BASE:")
          ++ post).
Proof.
  intros Hwf Hs Hne Hk.
  destruct (build_system_prompt_run base_prompt (Some agent) w) as [evs H].
  rewrite H. cbn [fst prompt_text]. rewrite Hwf.
  unfold composed, composed_lines, call_script_lines, knowledge_base_lines,
    knowledge_base_banner.
  rewrite Hs, Hk. destruct script as [|c s]; [congruence |].
  set (cn := py_str (company_name_value agent)).
  set (rest := knowledge_base_contents agent ++ question_handling_lines cn
               ++ critical_rules_lines cn).
  match goal with
  | |- context [join nl ?l] =>
      assert (E : l = (header_lines agent ++ call_script_preamble)
                      ++ (nl ++ c :: s)
                      :: ([nl ++ nl ++ banner]
                          ++ (upper cn ++ u8 " KNOWLEDGE BASE:") :: banner :: rest))
        by (unfold rest; cbn [app]; rewrite <- !app_assoc; reflexivity);
      rewrite E; clear E
  end.
  rewrite join_line. unfold after_line at 1. cbn [app].
  change ((nl ++ nl ++ banner) :: (upper cn ++ u8 " KNOWLEDGE BASE:") :: banner :: rest)
    with ([nl ++ nl ++ banner] ++ (upper cn ++ u8 " KNOWLEDGE BASE:") :: banner :: rest).
  rewrite (join_line nl (upper cn ++ u8 " KNOWLEDGE BASE:") [nl ++ nl ++ banner]).
  exists (before_line nl (header_lines agent ++ call_script_preamble) ++ nl),
    (nl ++ before_line nl [nl ++ nl ++ banner]),
    (after_line nl (banner :: rest)).
  rewrite <- !app_assoc. reflexivity.
Qed.

(** X5: a fallback never goes unrecorded.  Whatever exception the
    body of the [try] raises, the call returns the base prompt and the
    last record of its log is the error record carrying that very
    exception, after what the body had logged; the body does raise when
    the fields are ill-typed; and without an agent the call leaves the
    world as it was. *)
Theorem fallback_is_logged (base_prompt : pystr) (agent : Agent.t) (w : World) :
  (forall e w',
      with_prompt_parts (build_prompt agent) w = (Raise e, w') ->
      _build_system_prompt base_prompt (Some agent) w
      = (Ok base_prompt, logged [ErrorBuilding e] w'))
  /\ (well_formed agent = false ->
      exists e evs,
        with_prompt_parts (build_prompt agent) w = (Raise e, logged evs w)
        /\ log (snd (_build_system_prompt base_prompt (Some agent) w))
           = log w ++ evs ++ [ErrorBuilding e])
  /\ snd (_build_system_prompt base_prompt None w) = w.
Proof.
  split; [| split; [| reflexivity]].
  - intros e w' H. unfold _build_system_prompt, try_except. rewrite H.
    reflexivity.
  - intros Hwf. destruct (build_prompt_ill_formed agent w Hwf) as (e & evs & H).
    exists e, evs. split; [exact H |].
    unfold _build_system_prompt, try_except. rewrite H.
    unfold bind, logger, ret. cbn [fst snd log logged].
    now rewrite <- app_assoc.
Qed.

(** ** More of the remote client *)

Lemma create_agent_returns (depth : nat) (self : HumeAgentService)
    (name system_prompt voice_name language : pystr)
    (agent_obj : option Agent.t) (w : World) :
  exists v,
    fst (create_agent (S depth) self name system_prompt voice_name language
           agent_obj w) = Ok v.
Proof.
  cbn [create_agent]. unfold try_except.
  match goal with
  | |- context [let (_, _) := ?m w in _] => destruct (m w) as [[a|e] w']
  end.
  - now exists a.
  - destruct (create_agent_handler_run e w') as [ev He]. rewrite He.
    now exists PNone.
Qed.

(** X6: with room on the stack, [create_agent] raises nothing, whatever
    the provider answers, whatever the transport raises and whatever the
    agent holds: it returns a value, and the requests sent before the
    call are still there after it, in front of its own. *)
Theorem create_agent_never_raises (depth : nat) (self : HumeAgentService)
    (name system_prompt voice_name language : pystr)
    (agent_obj : option Agent.t) (w : World) :
  let run :=
    create_agent (S depth) self name system_prompt voice_name language
      agent_obj w in
  (exists v, fst run = Ok v)
  /\ (exists more, sent (snd run) = sent w ++ more).
Proof.
  cbv zeta. split; [apply create_agent_returns |].
  apply (grows_create_agent (S depth) self name system_prompt voice_name
           language agent_obj w).
Qed.

(** X7: what a 201 gives back is whatever the body holds under id:
    None when the body is a mapping without that key, the value as it is
    (a number, say) when it is no string; a body that cannot be parsed,
    or that is no mapping, gives None and no exception. *)
Theorem created_with_odd_body (depth : nat) (self : HumeAgentService)
    (name system_prompt voice_name language : pystr)
    (agent_obj : option Agent.t) (w : World) (r : Response) :
  let req := create_request self name (prompt_text system_prompt agent_obj)
               voice_name language in
  let result :=
    fst (create_agent (S depth) self name system_prompt voice_name language
           agent_obj w) in
  remote w (length (sent w)) req = Answers r ->
  status_code r = 201%Z ->
  (forall d, body_json r = Ok (PDict d) -> result = Ok (field d (u8 "id")))
  /\ (forall e, body_json r = Raise e -> result = Ok PNone)
  /\ (forall data,
        body_json r = Ok data -> isinstance_dict data = false ->
        result = Ok PNone).
Proof.
  intros req result Ho Hs. unfold result.
  destruct (create_agent_attempt depth self name system_prompt voice_name
              language agent_obj w) as [evs H].
  rewrite H. clear H. fold req.
  split; [| split]; intros *; intros Hb;
    unfold try_except, bind at 1, requests_send;
    rewrite remote_logged, !sent_logged, Ho;
    unfold handle_response, bind, lift, logger, ret; rewrite Hs, Hb;
    cbn [Z.eqb Pos.eqb].
  - reflexivity.
  - match goal with
    | |- fst (create_agent_handler e ?w') = _ =>
        destruct (create_agent_handler_run e w') as [ev He]; now rewrite He
    end.
  - intros Hd.
    destruct data; try discriminate Hd; cbn [py_get];
      match goal with
      | |- fst (create_agent_handler ?e ?w') = _ =>
          destruct (create_agent_handler_run e w') as [ev He]; now rewrite He
      end.
Qed.

(** The step a 409 makes: the request is out, the clock was read
    twice, and the call goes on as the call under the new name. *)
Lemma create_agent_conflict (depth : nat) (self : HumeAgentService)
    (name system_prompt voice_name language : pystr)
    (agent_obj : option Agent.t) (w : World) :
  let req := create_request self name (prompt_text system_prompt agent_obj)
               voice_name language in
  conflict (remote w (length (sent w)) req) = true ->
  exists evs,
    create_agent (S depth) self name system_prompt voice_name language agent_obj w
    = try_except
        (create_agent depth self
           (name ++ u8 "_" ++ strftime_YmdHMS (clock w (S (ticks w))))
           system_prompt voice_name language agent_obj)
        create_agent_handler
        {| remote := remote w; clock := clock w; sent := sent w ++ [req];
           ticks := S (S (ticks w)); log := log w ++ evs |}.
Proof.
  intros req Hc.
  destruct (create_agent_attempt depth self name system_prompt voice_name
              language agent_obj w) as [evs H].
  rewrite H. clear H. fold req.
  unfold try_except at 1. unfold bind at 1. unfold requests_send at 1.
  rewrite remote_logged, !sent_logged.
  destruct (remote w (length (sent w)) req) as [r|e]; [| discriminate Hc].
  cbn [conflict] in Hc.
  unfold handle_response. unfold bind at 1. unfold logger at 1.
  destruct (Z.eqb_spec (status_code r) 409) as [Hs|]; [| discriminate Hc].
  rewrite Hs. cbn [Z.eqb Pos.eqb].
  unfold bind at 1. unfold datetime_now at 1.
  unfold bind at 1. unfold logger at 1.
  unfold bind at 1. unfold datetime_now at 1.
  cbn [fst snd]. unfold try_except, logged.
  eexists. cbn [remote clock sent ticks log]. rewrite <- !app_assoc.
  reflexivity.
Qed.

Lemma try_except_ok {S A} (m : M S A) (handler : exn -> M S A) (s : S) :
  (exists a, fst (m s) = Ok a) -> try_except m handler s = m s.
Proof.
  intros [a H]. unfold try_except. destruct (m s) as [[a'|e] s']; [reflexivity |].
  discriminate H.
Qed.

(** When the answer is no 409 the call returns what it makes of it. *)
Lemma create_agent_settles (depth : nat) (self : HumeAgentService)
    (name system_prompt voice_name language : pystr)
    (agent_obj : option Agent.t) (w : World) :
  let req := create_request self name (prompt_text system_prompt agent_obj)
               voice_name language in
  conflict (remote w (length (sent w)) req) = false ->
  fst (create_agent (S depth) self name system_prompt voice_name language
         agent_obj w)
  = Ok (answer_value (remote w (length (sent w)) req)).
Proof.
  intros req Hc.
  destruct (create_agent_attempt depth self name system_prompt voice_name
              language agent_obj w) as [evs H].
  rewrite H. clear H. fold req.
  unfold try_except, bind at 1, requests_send.
  rewrite remote_logged, !sent_logged.
  destruct (remote w (length (sent w)) req) as [r|e]; cbn [conflict answer_value] in *.
  - unfold handle_response, bind, lift, logger, ret. rewrite Hc.
    destruct (status_code r =? 201)%Z; [| reflexivity].
    destruct (body_json r) as [data|e].
    + destruct data; cbn [py_get]; try reflexivity;
        match goal with
        | |- fst (create_agent_handler ?e ?w') = _ =>
            destruct (create_agent_handler_run e w') as [ev He]; now rewrite He
        end.
    + match goal with
      | |- fst (create_agent_handler ?e ?w') = _ =>
          destruct (create_agent_handler_run e w') as [ev He]; now rewrite He
      end.
  - match goal with
    | |- fst (create_agent_handler ?e ?w') = _ =>
        destruct (create_agent_handler_run e w') as [ev He]; now rewrite He
    end.
Qed.

(** X8: answered 409 [k] times in a row and then otherwise,
    [create_agent] sends [k + 1] create requests and no other: the
    first under the given name, each next one under the name before it
    with an underscore and a timestamp appended; the clock is read twice
    for each 409; and the call returns what the last answer gives (the
    id of a 201, None otherwise). *)
Theorem conflicts_walk_the_names (k depth : nat) (self : HumeAgentService)
    (name system_prompt voice_name language : pystr)
    (agent_obj : option Agent.t) (w : World) :
  let request_named n :=
    create_request self n (prompt_text system_prompt agent_obj)
      voice_name language in
  let names := retry_names (clock w) (ticks w) name k in
  let answer i := remote w (length (sent w) + i) (request_named (nth i names [])) in
  let run :=
    create_agent (S (k + depth)) self name system_prompt voice_name language
      agent_obj w in
  (forall i, i < k -> conflict (answer i) = true) ->
  conflict (answer k) = false ->
  sent (snd run) = sent w ++ map request_named names
  /\ ticks (snd run) = ticks w + 2 * k
  /\ fst run = Ok (answer_value (answer k)).
Proof.
  cbv zeta. revert name w.
  induction k as [|k IH]; intros name w Hc Hl.
  - cbn [retry_names nth Nat.add] in *. rewrite Nat.add_0_r in *.
    pose proof (create_agent_settles depth self name system_prompt
                  voice_name language agent_obj w Hl) as Hv.
    destruct (create_agent_no_conflict depth self name system_prompt
                voice_name language agent_obj w Hl) as (v & evs & H).
    cbn [Nat.add]. rewrite Hv, H. cbn [snd map]. split; [reflexivity |].
    split; [| now rewrite Nat.add_0_r].
    cbn [Nat.mul]. unfold logged, sent_to. cbn [ticks]. lia.
  - pose proof (Hc 0 (Nat.lt_0_succ k)) as H0.
    cbn [retry_names nth] in H0. rewrite Nat.add_0_r in H0.
    destruct (create_agent_conflict (S (k + depth)) self name system_prompt
                voice_name language agent_obj w H0) as [evs H].
    cbn [Nat.add]. rewrite H. clear H.
    rewrite try_except_ok by apply create_agent_returns.
    match goal with
    | |- context [create_agent _ _ ?n _ _ _ _ ?w3] =>
        specialize (IH n w3)
    end.
    cbn [remote clock sent ticks log] in IH.
    destruct IH as (IHs & IHt & IHv).
    + intros i Hi. rewrite length_app. cbn [length].
      specialize (Hc (S i) (proj1 (Nat.succ_lt_mono i k) Hi)).
      cbn [retry_names nth] in Hc.
      replace (length (sent w) + 1 + i) with (length (sent w) + S i) by lia.
      exact Hc.
    + rewrite length_app. cbn [length]. cbn [retry_names nth] in Hl.
      replace (length (sent w) + 1 + k) with (length (sent w) + S k) by lia.
      exact Hl.
    + rewrite IHs, IHt, IHv. cbn [retry_names map nth]. rewrite <- app_assoc.
      split; [reflexivity |]. split; [lia |].
      rewrite length_app. cbn [length].
      now replace (length (sent w) + 1 + k) with (length (sent w) + S k) by lia.
Qed.

(** The requests of a call are create requests under names that begin
    with the given one. *)
Lemma create_agent_sends (depth : nat) (self : HumeAgentService)
    (name system_prompt voice_name language : pystr)
    (agent_obj : option Agent.t) :
  sends
    (fun req =>
       exists suffix,
         req = create_request self (name ++ suffix)
                 (prompt_text system_prompt agent_obj) voice_name language)
    (create_agent depth self name system_prompt voice_name language agent_obj).
Proof.
  revert name. induction depth as [|depth IH]; intros name w.
  - exists []. cbn. now rewrite app_nil_r.
  - pose (req := create_request self name (prompt_text system_prompt agent_obj)
                   voice_name language).
    assert (Hreq : exists suffix,
               req = create_request self (name ++ suffix)
                       (prompt_text system_prompt agent_obj) voice_name language)
      by (exists []; now rewrite app_nil_r).
    destruct (conflict (remote w (length (sent w)) req)) eqn:Hc.
    + destruct (create_agent_conflict depth self name system_prompt
                  voice_name language agent_obj w Hc) as [evs H].
      rewrite H. clear H. fold req. unfold try_except.
      match goal with
      | |- context [create_agent depth self ?n _ _ _ _ ?w3] =>
          destruct (IH n w3) as (more & Hs & Hm);
          destruct (create_agent depth self n system_prompt voice_name
                      language agent_obj w3) as [[v|e] w4]
      end; cbn [snd sent] in Hs.
      * exists (req :: more). cbn [snd]. rewrite Hs, <- app_assoc.
        split; [reflexivity |]. constructor; [exact Hreq |].
        eapply Forall_impl; [| exact Hm]. intros r [suffix ->].
        eexists. now rewrite <- app_assoc.
      * destruct (create_agent_handler_run e w4) as [ev He]. rewrite He.
        exists (req :: more). cbn [snd]. rewrite sent_logged, Hs, <- app_assoc.
        split; [reflexivity |]. constructor; [exact Hreq |].
        eapply Forall_impl; [| exact Hm]. intros r [suffix ->].
        eexists. now rewrite <- app_assoc.
    + destruct (create_agent_no_conflict depth self name system_prompt
                  voice_name language agent_obj w Hc) as (v & evs & H).
      rewrite H. exists [req]. split; [reflexivity |].
      constructor; [exact Hreq | constructor].
Qed.

(** X9: every request [create_agent] sends is a create request of the
    same service with the same prompt (the one composed from the base
    prompt and the agent), voice and language; the names all begin with
    the name the call was given. *)
Theorem create_agent_sends_only_creates (depth : nat) (self : HumeAgentService)
    (name system_prompt voice_name language : pystr)
    (agent_obj : option Agent.t) :
  sends
    (fun req =>
       exists suffix,
         req = create_request self (name ++ suffix)
                 (prompt_text system_prompt agent_obj) voice_name language)
    (create_agent depth self name system_prompt voice_name language agent_obj).
Proof. apply create_agent_sends. Qed.

(** X10: the description of a create payload is never longer than
    203 code points, and it agrees with the prompt on the first 200. *)
Theorem description_is_bounded (name enhanced_prompt voice_name language : pystr) :
  exists description,
    py_get (create_payload name enhanced_prompt voice_name language)
      (u8 "description") PNone = Ok (PStr description)
    /\ length description <= 203
    /\ firstn 200 description = firstn 200 enhanced_prompt.
Proof.
  eexists. split; [apply payload_description_field |].
  destruct (Nat.ltb_spec 200 (length enhanced_prompt)) as [Hl|Hl].
  - split.
    + rewrite length_app, length_firstn.
      replace (length (u8 "...")) with 3 by (vm_compute; reflexivity). lia.
    + rewrite firstn_app, length_firstn, firstn_firstn.
      replace (200 - Nat.min 200 (length enhanced_prompt)) with 0 by lia.
      cbn [firstn]. rewrite app_nil_r. now rewrite Nat.min_id.
  - split; [lia | reflexivity].
Qed.

(** ** The other operations of the client *)

Lemma setitem_fresh (d : list (pystr * pyval)) (key : pystr) (value : pyval) :
  lookup d key = None -> setitem d key value = d ++ [(key, value)].
Proof.
  induction d as [|[k v] d IH]; intros H; cbn [setitem lookup app] in *.
  - reflexivity.
  - destruct (pystr_eqb k key); [discriminate H |]. now rewrite IH.
Qed.

(** The payload lines 304-312 build is the supplied fields, in the
    order of the four tests. *)
Lemma update_payload_fields (name system_prompt voice_name language : pyval) :
  (let payload := [] in
   let payload :=
     if truthy name then setitem payload (u8 "name") name else payload in
   let payload :=
     if truthy system_prompt
     then setitem payload (u8 "prompt") (PDict [ (u8 "text", system_prompt) ])
     else payload in
   let payload :=
     if truthy voice_name
     then setitem payload (u8 "voice")
            (PDict [ (u8 "provider", PStr (u8 "HUME_AI")); (u8 "name", voice_name) ])
     else payload in
   let payload :=
     if truthy language
     then setitem payload (u8 "language") (PDict [ (u8 "code", language) ])
     else payload in
   payload)
  = update_fields name system_prompt voice_name language.
Proof.
  cbv zeta. unfold update_fields.
  destruct (truthy name), (truthy system_prompt), (truthy voice_name),
    (truthy language); vm_compute; reflexivity.
Qed.

Lemma update_fields_empty (name system_prompt voice_name language : pyval) :
  truthy (PDict (update_fields name system_prompt voice_name language))
  = truthy name || truthy system_prompt || truthy voice_name || truthy language.
Proof.
  unfold update_fields.
  destruct (truthy name), (truthy system_prompt), (truthy voice_name),
    (truthy language); reflexivity.
Qed.

Lemma update_agent_run (self : HumeAgentService) (config_id : pystr)
    (name system_prompt voice_name language : pyval) (w : World) :
  let payload := update_fields name system_prompt voice_name language in
  let req := config_request PATCH self config_id (Some (PDict payload)) in
  exists evs,
    update_agent self config_id name system_prompt voice_name language w
    = if truthy (PDict payload)
      then (Ok match outcome_of w req with
               | Answers r => (status_code r =? 200)%Z
               | Fails _ => false
               end,
            logged evs (sent_to req w))
      else (Ok false, logged evs w).
Proof.
  cbv zeta. unfold update_agent.
  pose proof (update_payload_fields name system_prompt voice_name language) as P.
  cbv zeta in *. rewrite !P. clear P.
  fold (config_request PATCH self config_id
          (Some (PDict (update_fields name system_prompt voice_name language)))).
  set (payload := update_fields name system_prompt voice_name language).
  set (req := config_request PATCH self config_id (Some (PDict payload))).
  unfold try_except, outcome_of.
  destruct (truthy (PDict payload)); cbn [negb].
  - unfold bind at 1. unfold logger at 1. unfold bind at 1.
    unfold requests_send. cbn [remote clock sent ticks log fst snd].
    destruct (remote w (length (sent w)) req) as [r|e].
    + destruct (status_code r =? 200)%Z; eexists; unfold bind, logger, ret, logged, sent_to;
        cbn [remote clock sent ticks log fst snd]; rewrite <- ?app_assoc; reflexivity.
    + eexists; unfold bind, logger, ret, logged, sent_to;
        cbn [remote clock sent ticks log fst snd]; rewrite <- ?app_assoc; reflexivity.
  - eexists. unfold bind, logger, ret, logged. cbn [remote clock sent ticks log fst snd].
    reflexivity.
Qed.

(** X11: given at least one field that is neither None nor empty,
    [update_agent] sends one PATCH to the configuration's address whose
    body holds the supplied fields and no other (the prompt as it was
    given, not composed), and returns True exactly when the answer has
    status 200; a failure of the transport gives False. *)
Theorem update_agent_patches (self : HumeAgentService) (config_id : pystr)
    (name system_prompt voice_name language : pyval) (w : World) :
  let payload := update_fields name system_prompt voice_name language in
  let req := config_request PATCH self config_id (Some (PDict payload)) in
  let run :=
    update_agent self config_id name system_prompt voice_name language w in
  truthy name || truthy system_prompt || truthy voice_name || truthy language
  = true ->
  sent (snd run) = sent w ++ [req]
  /\ (fst run = Ok true <->
      exists r, outcome_of w req = Answers r /\ status_code r = 200%Z)
  /\ (fst run = Ok true \/ fst run = Ok false).
Proof.
  cbv zeta. intros Ht.
  destruct (update_agent_run self config_id name system_prompt voice_name
              language w) as [evs H].
  cbv zeta in H. rewrite H, update_fields_empty, Ht. cbn [fst snd]. clear H.
  split; [reflexivity |].
  destruct (outcome_of w _) as [r|e].
  - destruct (Z.eqb_spec (status_code r) 200) as [Hs|Hs]; split.
    + split; [intros _; now exists r | reflexivity].
    + now left.
    + split; [discriminate | intros (r' & Hr & Hs'); congruence].
    + now right.
  - split; [| now right].
    split; [discriminate | intros (r' & Hr & _); discriminate].
Qed.

(** X12: [update_agent] never raises, and it sends no request exactly
    when each of the four fields is None or empty; it then returns
    False. *)
Theorem update_agent_silent_iff_no_fields (self : HumeAgentService)
    (config_id : pystr) (name system_prompt voice_name language : pyval)
    (w : World) :
  let run :=
    update_agent self config_id name system_prompt voice_name language w in
  (exists b, fst run = Ok b)
  /\ (sent (snd run) = sent w <->
      truthy name || truthy system_prompt || truthy voice_name || truthy language
      = false)
  /\ (sent (snd run) = sent w -> fst run = Ok false).
Proof.
  cbv zeta.
  destruct (update_agent_run self config_id name system_prompt voice_name
              language w) as [evs H].
  cbv zeta in H. rewrite H, update_fields_empty. clear H.
  destruct (truthy name || truthy system_prompt || truthy voice_name
            || truthy language); cbn [fst snd].
  - split; [eexists; reflexivity |].
    assert (N : sent (logged evs (sent_to
                 (config_request PATCH self config_id
                    (Some (PDict (update_fields name system_prompt voice_name
                                    language)))) w)) <> sent w).
    { cbn [logged sent_to sent]. intros E.
      apply (f_equal (@length HttpRequest)) in E.
      rewrite length_app in E. cbn [length] in E. lia. }
    split; [split; [intros E; now destruct N | discriminate] |].
    intros E. now destruct N.
  - split; [eexists; reflexivity |]. split; [| reflexivity].
    split; reflexivity.
Qed.

Lemma delete_agent_run (self : HumeAgentService) (config_id : pystr) (c : Client) :
  let req := config_request DELETE self config_id None in
  exists evs,
    delete_agent self config_id c
    = (Ok match outcome_of (fst c) req with
          | Answers r => status_in (status_code r) [200%Z; 204%Z]
          | Fails _ => false
          end,
       (sent_to req (fst c), snd c ++ evs)).
Proof.
  cbv zeta. unfold delete_agent, try_except, outcome_of. cbv zeta.
  fold (config_request DELETE self config_id None).
  set (req := config_request DELETE self config_id None).
  unfold bind at 1. unfold client_logger at 1. unfold bind at 1.
  unfold on_world, requests_send. cbn [fst snd].
  destruct (remote (fst c) (length (sent (fst c))) req) as [r|e].
  - destruct (status_in (status_code r) [200%Z; 204%Z]);
      eexists; unfold bind, client_logger, ret, sent_to; cbn [fst snd];
      rewrite <- ?app_assoc; reflexivity.
  - eexists; unfold bind, client_logger, ret, sent_to; cbn [fst snd];
      rewrite <- ?app_assoc; reflexivity.
Qed.

(** X13: [delete_agent] sends one DELETE to the configuration's
    address and returns True exactly when the answer has status 200 or
    204; any other status (404, say) and any failure of the transport
    give False, and nothing is raised. *)
Theorem delete_agent_contract (self : HumeAgentService) (config_id : pystr)
    (c : Client) :
  let req := config_request DELETE self config_id None in
  let run := delete_agent self config_id c in
  sent (fst (snd run)) = sent (fst c) ++ [req]
  /\ (fst run = Ok true <->
      exists r, outcome_of (fst c) req = Answers r
                /\ (status_code r = 200%Z \/ status_code r = 204%Z))
  /\ (fst run = Ok true \/ fst run = Ok false).
Proof.
  cbv zeta. destruct (delete_agent_run self config_id c) as [evs H].
  cbv zeta in H. rewrite H. cbn [fst snd]. clear H.
  split; [reflexivity |].
  destruct (outcome_of (fst c) _) as [r|e].
  - unfold status_in. cbn [existsb]. rewrite orb_false_r.
    destruct (Z.eqb_spec (status_code r) 200) as [H200|H200];
      destruct (Z.eqb_spec (status_code r) 204) as [H204|H204]; cbn [orb];
      (split; [| auto]);
      try (split; [intros _; exists r; auto | reflexivity]).
    split; [discriminate |].
    intros (r' & Hr & [Hs|Hs]); injection Hr as <-; contradiction.
  - split; [| auto].
    split; [discriminate | intros (r' & Hr & _); discriminate].
Qed.

Lemma get_agent_run (self : HumeAgentService) (config_id : pystr) (c : Client) :
  let req := config_request GET self config_id None in
  exists evs,
    get_agent self config_id c
    = (Ok match outcome_of (fst c) req with
          | Answers r =>
              if (status_code r =? 200)%Z
              then match body_json r with Ok data => data | Raise _ => PNone end
              else PNone
          | Fails _ => PNone
          end,
       (sent_to req (fst c), snd c ++ evs)).
Proof.
  cbv zeta. unfold get_agent, try_except, outcome_of. cbv zeta.
  fold (config_request GET self config_id None).
  set (req := config_request GET self config_id None).
  unfold bind at 1. unfold on_world, requests_send. cbn [fst snd].
  destruct (remote (fst c) (length (sent (fst c))) req) as [r|e].
  - destruct (status_code r =? 200)%Z.
    + unfold lift. destruct (body_json r) as [data|e].
      * exists []. unfold sent_to. now rewrite app_nil_r.
      * eexists. unfold bind, client_logger, ret, sent_to. cbn [fst snd]. reflexivity.
    + eexists. unfold bind, client_logger, ret, sent_to. cbn [fst snd]. reflexivity.
  - eexists. unfold bind, client_logger, ret, sent_to. cbn [fst snd]. reflexivity.
Qed.

(** X14: [get_agent] sends one GET to the configuration's address and
    returns the parsed body of an answer with status 200, whatever that
    body is; an answer with another status, a body that cannot be
    parsed, and a failure of the transport each give None, and nothing
    is raised. *)
Theorem get_agent_contract (self : HumeAgentService) (config_id : pystr)
    (c : Client) :
  let req := config_request GET self config_id None in
  let run := get_agent self config_id c in
  sent (fst (snd run)) = sent (fst c) ++ [req]
  /\ (forall r data,
        outcome_of (fst c) req = Answers r -> status_code r = 200%Z ->
        body_json r = Ok data -> fst run = Ok data)
  /\ (forall r e,
        outcome_of (fst c) req = Answers r -> status_code r = 200%Z ->
        body_json r = Raise e -> fst run = Ok PNone)
  /\ (forall r,
        outcome_of (fst c) req = Answers r -> status_code r <> 200%Z ->
        fst run = Ok PNone)
  /\ (forall e, outcome_of (fst c) req = Fails e -> fst run = Ok PNone).
Proof.
  cbv zeta. destruct (get_agent_run self config_id c) as [evs H].
  cbv zeta in H. rewrite H. cbn [fst snd]. clear H.
  split; [reflexivity |].
  repeat split; intros *; intros Ho; rewrite Ho.
  - intros Hs Hb. now rewrite Hs, Hb.
  - intros Hs Hb. now rewrite Hs, Hb.
  - intros Hs. now destruct (Z.eqb_spec (status_code r) 200).
  - reflexivity.
Qed.

Lemma list_agents_run (self : HumeAgentService) (c : Client) :
  let req := list_request self in
  exists evs,
    list_agents self c
    = (Ok match outcome_of (fst c) req with
          | Answers r =>
              if (status_code r =? 200)%Z
              then match body_json r with
                   | Ok (PDict d) =>
                       match lookup d (u8 "configs") with
                       | Some v => v
                       | None => PList []
                       end
                   | _ => PList []
                   end
              else PList []
          | Fails _ => PList []
          end,
       (sent_to req (fst c), snd c ++ evs)).
Proof.
  cbv zeta. unfold list_agents, try_except, outcome_of. cbv zeta.
  fold (list_request self).
  set (req := list_request self).
  unfold bind at 1. unfold on_world, requests_send. cbn [fst snd].
  destruct (remote (fst c) (length (sent (fst c))) req) as [r|e].
  - destruct (status_code r =? 200)%Z.
    + unfold bind, lift. destruct (body_json r) as [data|e].
      * destruct data; cbn [py_get];
          try (eexists; unfold bind, client_logger, ret, sent_to; cbn [fst snd];
               reflexivity).
        exists []. unfold sent_to. now rewrite app_nil_r.
      * eexists. unfold bind, client_logger, ret, sent_to. cbn [fst snd]. reflexivity.
    + eexists. unfold bind, client_logger, ret, sent_to. cbn [fst snd]. reflexivity.
  - eexists. unfold bind, client_logger, ret, sent_to. cbn [fst snd]. reflexivity.
Qed.

(** X15: [list_agents] sends one GET to the collection's address.
    From an answer with status 200 whose body is a mapping it returns
    what the body holds under configs, as it is, and the empty list when
    the key is missing; a body that is no mapping or cannot be parsed,
    another status, and a failure of the transport each give the empty
    list, and nothing is raised. *)
Theorem list_agents_contract (self : HumeAgentService) (c : Client) :
  let req := list_request self in
  let run := list_agents self c in
  sent (fst (snd run)) = sent (fst c) ++ [req]
  /\ (forall r d,
        outcome_of (fst c) req = Answers r -> status_code r = 200%Z ->
        body_json r = Ok (PDict d) ->
        fst run = Ok match lookup d (u8 "configs") with
                     | Some configs => configs
                     | None => PList []
                     end)
  /\ (forall r data,
        outcome_of (fst c) req = Answers r -> status_code r = 200%Z ->
        body_json r = Ok data -> isinstance_dict data = false ->
        fst run = Ok (PList []))
  /\ (forall r e,
        outcome_of (fst c) req = Answers r -> status_code r = 200%Z ->
        body_json r = Raise e -> fst run = Ok (PList []))
  /\ (forall r,
        outcome_of (fst c) req = Answers r -> status_code r <> 200%Z ->
        fst run = Ok (PList []))
  /\ (forall e, outcome_of (fst c) req = Fails e -> fst run = Ok (PList [])).
Proof.
  cbv zeta. destruct (list_agents_run self c) as [evs H].
  cbv zeta in H. rewrite H. cbn [fst snd]. clear H.
  split; [reflexivity |].
  repeat split; intros *; intros Ho; rewrite Ho.
  - intros Hs Hb. now rewrite Hs, Hb.
  - intros Hs Hb Hd. rewrite Hs, Hb. now destruct data.
  - intros Hs Hb. now rewrite Hs, Hb.
  - intros Hs. now destruct (Z.eqb_spec (status_code r) 200).
  - reflexivity.
Qed.

(** ** What the calls do not depend on *)

Lemma bind_ext {S A B} (m m' : M S A) (k k' : A -> M S B) (s : S) :
  m s = m' s -> (forall a s', k a s' = k' a s') -> bind m k s = bind m' k' s.
Proof.
  intros Hm Hk. unfold bind. rewrite Hm.
  destruct (m' s) as [[a|e] s']; [apply Hk | reflexivity].
Qed.

Lemma try_except_ext {S A} (m m' : M S A) (handler : exn -> M S A) (s : S) :
  m s = m' s -> try_except m handler s = try_except m' handler s.
Proof. intros Hm. unfold try_except. now rewrite Hm. Qed.

Lemma handle_response_ext (retry retry' : pystr -> M World pyval) (name : pystr)
    (response : Response) (w : World) :
  (forall unique_name w', retry unique_name w' = retry' unique_name w') ->
  handle_response retry name response w = handle_response retry' name response w.
Proof.
  intros H. unfold handle_response.
  apply bind_ext; [reflexivity | intros _ w1].
  destruct (status_code response =? 201)%Z; [reflexivity |].
  destruct (status_code response =? 409)%Z; [| reflexivity].
  apply bind_ext; [reflexivity | intros t1 w2].
  apply bind_ext; [reflexivity | intros _ w3].
  apply bind_ext; [reflexivity | intros t2 w4]. apply H.
Qed.

(** Two calls of [create_agent] that compose the same prompt in the
    same way, for agents with the same truth of script and business
    info, run alike. *)
Lemma create_agent_ext (depth : nat) (self : HumeAgentService)
    (system_prompt system_prompt' voice_name language : pystr)
    (agent_obj agent_obj' : option Agent.t) :
  (forall w, _build_system_prompt system_prompt agent_obj w
             = _build_system_prompt system_prompt' agent_obj' w) ->
  agent_has Agent.sales_script_text agent_obj
  = agent_has Agent.sales_script_text agent_obj' ->
  agent_has Agent.business_info agent_obj
  = agent_has Agent.business_info agent_obj' ->
  forall name w,
    create_agent depth self name system_prompt voice_name language agent_obj w
    = create_agent depth self name system_prompt' voice_name language agent_obj' w.
Proof.
  intros Hb Hs Hi.
  induction depth as [|depth IH]; intros name w; cbn [create_agent].
  - reflexivity.
  - apply try_except_ext. apply bind_ext; [apply Hb | intros enhanced_prompt w1].
    cbv zeta. rewrite Hs, Hi.
    apply bind_ext; [reflexivity | intros _ w2].
    apply bind_ext; [reflexivity | intros response w3].
    apply handle_response_ext. intros unique_name w4. apply IH.
Qed.

(** X16: the name the agent object carries is read (lines 160-161)
    and never used: two agent objects with the same business info,
    script and knowledge files give the same prompt, the same log and
    the same run of [create_agent], whatever their names. *)
Theorem agent_name_is_not_used (depth : nat) (self : HumeAgentService)
    (name system_prompt voice_name language : pystr)
    (agent agent' : Agent.t) (w : World) :
  Agent.business_info agent = Agent.business_info agent' ->
  Agent.sales_script_text agent = Agent.sales_script_text agent' ->
  Agent.knowledge_files agent = Agent.knowledge_files agent' ->
  _build_system_prompt system_prompt (Some agent) w
  = _build_system_prompt system_prompt (Some agent') w
  /\ create_agent depth self name system_prompt voice_name language
       (Some agent) w
     = create_agent depth self name system_prompt voice_name language
         (Some agent') w.
Proof.
  destruct agent as [n b s k], agent' as [n' b' s' k'].
  cbn [Agent.business_info Agent.sales_script_text Agent.knowledge_files].
  intros <- <- <-.
  split; [reflexivity |].
  apply create_agent_ext; [intros w' | |]; reflexivity.
Qed.

Lemma build_system_prompt_well_formed (base_prompt base_prompt' : pystr)
    (agent : Agent.t) (w : World) :
  well_formed agent = true ->
  _build_system_prompt base_prompt (Some agent) w
  = _build_system_prompt base_prompt' (Some agent) w.
Proof.
  intros Hwf. unfold _build_system_prompt, try_except.
  destruct (build_prompt_well_formed agent w Hwf) as [evs H].
  now rewrite H.
Qed.

(** X17: for an agent object whose composition succeeds, the base
    prompt given to [create_agent] has no part in the call: with another
    base prompt the same requests are sent, the same records logged and
    the same value returned. *)
Theorem base_prompt_ignored_when_composed (depth : nat) (self : HumeAgentService)
    (name system_prompt system_prompt' voice_name language : pystr)
    (agent : Agent.t) (w : World) :
  well_formed agent = true ->
  create_agent depth self name system_prompt voice_name language (Some agent) w
  = create_agent depth self name system_prompt' voice_name language (Some agent) w.
Proof.
  intros Hwf.
  apply create_agent_ext; [intros w' | |]; try reflexivity.
  now apply build_system_prompt_well_formed.
Qed.

(** X18: a business info that is truthy and no mapping (a text, a
    list) is not read, yet it opens the knowledge-base section: the
    company is "our company" throughout, and the section holds its
    banner and the knowledge files only. *)
Theorem unreadable_business_info (base_prompt : pystr) (agent : Agent.t)
    (w : World) :
  truthy (Agent.business_info agent) = true ->
  isinstance_dict (Agent.business_info agent) = false ->
  text_or_empty (Agent.sales_script_text agent) = true ->
  fst (_build_system_prompt base_prompt (Some agent) w)
  = Ok (join nl
          ([ header_line (u8 "our company") ]
           ++ call_script_lines agent
           ++ knowledge_base_banner (u8 "our company")
           ++ flat_map knowledge_file_lines
                (as_mapping (Agent.knowledge_files agent))
           ++ question_handling_lines (u8 "our company")
           ++ critical_rules_lines (u8 "our company"))).
Proof.
  intros Ht Hd Hs.
  destruct (build_system_prompt_run base_prompt (Some agent) w) as [evs H].
  rewrite H. clear H. cbn [fst prompt_text].
  assert (Hm : as_mapping (Agent.business_info agent) = [])
    by (destruct (Agent.business_info agent); try reflexivity; discriminate Hd).
  unfold well_formed, composed, composed_lines, header_lines,
    knowledge_base_lines, knowledge_base_included, knowledge_base_contents,
    company_name_value, website_lines, industry_lines, product_features_lines,
    pricing_lines, target_customers_lines.
  rewrite Hm, Hs, Ht, orb_true_r. cbv zeta.
  cbn [lookup field truthy isinstance_str text_or_empty negb orb andb py_str app].
  reflexivity.
Qed.

(** ** The composed prompt in the create request *)

Lemma critical_rules_are_long (company_name : pystr) :
  200 < length (join nl (critical_rules_lines company_name)).
Proof.
  rewrite <- (firstn_skipn 5 (critical_rules_lines company_name)).
  rewrite join_app by discriminate. rewrite length_app.
  apply Nat.lt_lt_add_r. vm_compute. repeat constructor.
Qed.

Lemma composed_is_long (agent : Agent.t) : 200 < length (composed agent).
Proof.
  unfold composed, composed_lines.
  set (c := critical_rules_lines _).
  rewrite !app_assoc.
  destruct (join_app_suffix nl
              (((header_lines agent ++ call_script_lines agent)
                ++ knowledge_base_lines agent)
               ++ question_handling_lines (py_str (company_name_value agent)))
              c (critical_rules_lines_not_nil _)) as [pre H].
  rewrite H, length_app.
  pose proof (critical_rules_are_long (py_str (company_name_value agent))).
  fold c in H0. lia.
Qed.

(** X19: whenever the composition succeeds the prompt is longer than
    200 code points (the rules block alone is), so the description of
    the create request is always the cut form: the first 200 code
    points of the prompt and three dots. *)
Theorem composed_prompt_is_cut (base_prompt name voice_name language : pystr)
    (agent : Agent.t) (w : World) :
  well_formed agent = true ->
  exists enhanced_prompt,
    fst (_build_system_prompt base_prompt (Some agent) w) = Ok enhanced_prompt
    /\ 200 < length enhanced_prompt
    /\ py_get (create_payload name enhanced_prompt voice_name language)
         (u8 "description") PNone
       = Ok (PStr (firstn 200 enhanced_prompt ++ u8 "...")).
Proof.
  intros Hwf. exists (composed agent).
  destruct (build_system_prompt_run base_prompt (Some agent) w) as [evs H].
  rewrite H. cbn [fst prompt_text]. rewrite Hwf.
  pose proof (composed_is_long agent) as Hl.
  split; [reflexivity |]. split; [exact Hl |].
  rewrite payload_description_field.
  now destruct (Nat.ltb_spec 200 (length (composed agent))); [| lia].
Qed.

(** ** What every request has in common *)

Lemma keyed_collection (HUME_API_KEY : pystr) (verb : http_method)
    (body : option pyval) :
  keyed HUME_API_KEY
    {| method := verb; url := base_url (new_service HUME_API_KEY) ++ u8 "/evi/configs";
       json := body; headers := service_headers (new_service HUME_API_KEY);
       timeout := 10 |}.
Proof.
  split; [| split; reflexivity]. exists []. cbn [url]. rewrite app_nil_r.
  vm_compute. reflexivity.
Qed.

Lemma keyed_config (HUME_API_KEY : pystr) (verb : http_method) (config_id : pystr)
    (body : option pyval) :
  keyed HUME_API_KEY (config_request verb (new_service HUME_API_KEY) config_id body).
Proof.
  split; [| split; reflexivity]. exists (u8 "/" ++ config_id).
  cbn [url config_request base_url new_service].
  assert (E : forall rest, HUME_API_BASE ++ u8 "/evi/configs/" ++ rest
                           = u8 "https://api.hume.ai/v0/evi/configs" ++ u8 "/" ++ rest)
    by (intros rest; vm_compute; reflexivity).
  apply E.
Qed.

(** X20: the service made for a key talks to the provider's
    configurations only: every request of [create_agent],
    [update_agent], [delete_agent], [get_agent] and [list_agents] goes to
    an address under https://api.hume.ai/v0/evi/configs, carries the key
    in the header X-Hume-Api-Key beside the JSON content type, and has a
    timeout of ten seconds. *)
Theorem every_request_is_keyed (HUME_API_KEY : pystr) (depth : nat)
    (name system_prompt voice_name language config_id : pystr)
    (agent_obj : option Agent.t) (new_name new_prompt new_voice new_language : pyval) :
  let self := new_service HUME_API_KEY in
  sends (keyed HUME_API_KEY)
    (create_agent depth self name system_prompt voice_name language agent_obj)
  /\ sends (keyed HUME_API_KEY)
       (update_agent self config_id new_name new_prompt new_voice new_language)
  /\ (forall c,
        exists more,
          sent (fst (snd (delete_agent self config_id c))) = sent (fst c) ++ more
          /\ Forall (keyed HUME_API_KEY) more)
  /\ (forall c,
        exists more,
          sent (fst (snd (get_agent self config_id c))) = sent (fst c) ++ more
          /\ Forall (keyed HUME_API_KEY) more)
  /\ (forall c,
        exists more,
          sent (fst (snd (list_agents self c))) = sent (fst c) ++ more
          /\ Forall (keyed HUME_API_KEY) more).
Proof.
  intros self. repeat split.
  - intros w.
    destruct (create_agent_sends depth self name system_prompt voice_name
                language agent_obj w) as (more & Hs & Hm).
    exists more. split; [exact Hs |].
    eapply Forall_impl; [| exact Hm]. intros req [suffix ->].
    apply keyed_collection.
  - intros w.
    destruct (update_agent_run self config_id new_name new_prompt new_voice
                new_language w) as [evs H].
    cbv zeta in H. rewrite H.
    destruct (truthy _).
    + eexists. split; [reflexivity |]. constructor; [| constructor].
      apply keyed_config.
    + exists []. split; [cbn; now rewrite app_nil_r | constructor].
  - intros c. destruct (delete_agent_run self config_id c) as [evs H].
    cbv zeta in H. rewrite H. eexists. split; [reflexivity |].
    constructor; [apply keyed_config | constructor].
  - intros c. destruct (get_agent_run self config_id c) as [evs H].
    cbv zeta in H. rewrite H. eexists. split; [reflexivity |].
    constructor; [apply keyed_config | constructor].
  - intros c. destruct (list_agents_run self c) as [evs H].
    cbv zeta in H. rewrite H. eexists. split; [reflexivity |].
    constructor; [apply keyed_collection | constructor].
Qed.

End Builtins.

(** ** Closed examples *)

Lemma starts_with_app (needle post : pystr) : starts_with needle (needle ++ post) = true.
Proof.
  induction needle as [|c needle IH]; [reflexivity |].
  simpl. now rewrite N.eqb_refl, IH.
Qed.

Lemma contains_app (needle pre post : pystr) :
  contains needle (pre ++ needle ++ post) = true.
Proof.
  induction pre as [|c pre IH].
  - simpl app. pose proof (starts_with_app needle post) as H.
    destruct (needle ++ post); simpl; now rewrite H.
  - simpl. rewrite IH. apply orb_true_r.
Qed.

Lemma not_contained (needle out : pystr) :
  contains needle out = false -> ~ exists pre post, out = pre ++ needle ++ post.
Proof.
  intros F (pre & post & ->). rewrite contains_app in F. discriminate F.
Qed.

Example acme_prompt_head :
  exists rest,
    fst (_build_system_prompt ascii_upper str_of_constants (u8 "Be friendly.")
           (Some acme) (world_of (fun _ => created)))
    = Ok (u8 "You are a professional AI sales agent calling from Acme." ++ rest).
Proof. eexists. vm_compute. reflexivity. Qed.

(** C2 at [acme]. *)
Lemma script_in_prompt_witness :
  exists pre post,
    fst (_build_system_prompt ascii_upper str_of_constants (u8 "Be friendly.")
           (Some acme) quiet)
    = Ok (header_line (u8 "Acme") ++ pre
          ++ u8 "Hello, this is Bob from Acme." ++ post
          ++ join nl (question_handling_lines (u8 "Acme"))
          ++ nl ++ join nl (critical_rules_lines (u8 "Acme"))).
Proof.
  apply (script_in_prompt ascii_upper str_of_constants (u8 "Be friendly.") acme
           (u8 "Hello, this is Bob from Acme.") quiet).
  - vm_compute. reflexivity.
  - reflexivity.
  - vm_compute. discriminate.
Defined.

(** C2 as stated fails: the composition of [malformed] raises, the base
    prompt comes back, and the script is nowhere in it. *)
Lemma script_lost_on_fallback :
  Agent.sales_script_text malformed = PStr (u8 "Hello")
  /\ u8 "Hello" <> []
  /\ fst (_build_system_prompt ascii_upper str_of_constants
            (u8 "Be friendly.") (Some malformed) quiet)
     = Ok (u8 "Be friendly.")
  /\ ~ exists pre post, u8 "Be friendly." = pre ++ u8 "Hello" ++ post.
Proof.
  split; [reflexivity | split; [vm_compute; discriminate | split]].
  - vm_compute. reflexivity.
  - apply not_contained. vm_compute. reflexivity.
Qed.

(** C3 at [acme]: the section in full. *)
Lemma knowledge_base_section_witness :
  fst (_build_system_prompt ascii_upper str_of_constants (u8 "Be friendly.")
         (Some acme) quiet)
  = Ok (join nl
          (header_lines str_of_constants acme ++ call_script_lines acme
           ++ [ nl ++ nl ++ banner; u8 "ACME KNOWLEDGE BASE:"; banner;
                nl ++ u8 "Website: acme.io";
                nl ++ u8 "PRODUCT FEATURES:"; u8 "• Fast"; u8 "• Safe";
                nl ++ u8 "PRICING:"; u8 "$5 a month";
                nl ++ u8 "RETURN POLICY:"; u8 "30 days" ]
           ++ question_handling_lines (u8 "Acme")
           ++ critical_rules_lines (u8 "Acme"))).
Proof.
  refine (eq_trans
            (knowledge_base_section ascii_upper str_of_constants
               (u8 "Be friendly.") acme quiet _) _);
    vm_compute; reflexivity.
Defined.

(** C3 as stated fails, three ways: the business info of [blank] is
    present (and empty), and no knowledge-base section is in the output;
    the business info of [malformed] is not empty, and none is there
    either, the composition having raised; and the knowledge file
    open_hours of [acme], whose value is empty, is rendered nowhere. *)
Lemma knowledge_base_section_left_out :
  (Agent.business_info blank <> PNone
   /\ forall out,
        fst (_build_system_prompt ascii_upper str_of_constants
               (u8 "Be friendly.") (Some blank) quiet) = Ok out ->
        ~ exists pre post, out = pre ++ u8 "KNOWLEDGE BASE:" ++ post)
  /\ (truthy (Agent.business_info malformed) = true
      /\ forall out,
           fst (_build_system_prompt ascii_upper str_of_constants
                  (u8 "Be friendly.") (Some malformed) quiet) = Ok out ->
           ~ exists pre post, out = pre ++ u8 "KNOWLEDGE BASE:" ++ post)
  /\ (lookup (as_mapping (Agent.knowledge_files acme)) (u8 "open_hours")
      = Some (PStr [])
      /\ forall out,
           fst (_build_system_prompt ascii_upper str_of_constants
                  (u8 "Be friendly.") (Some acme) quiet) = Ok out ->
           ~ exists pre post, out = pre ++ u8 "OPEN HOURS:" ++ post).
Proof.
  split; [| split]; (split; [try discriminate; reflexivity |]);
    intros out E; apply not_contained;
    vm_compute in E; injection E as <-; vm_compute; reflexivity.
Qed.

(** C4 at [malformed]: the composition raises, the base prompt comes back. *)
Lemma never_raises_witness :
  fst (_build_system_prompt ascii_upper str_of_constants (u8 "Be friendly.")
         (Some malformed) quiet)
  = Ok (u8 "Be friendly.").
Proof.
  apply (proj2 (proj2 (build_system_prompt_never_raises ascii_upper
                         str_of_constants (u8 "Be friendly.") (Some malformed)
                         quiet)) malformed TypeError).
  vm_compute. reflexivity.
Defined.

(** C6 at four providers: one that creates, one that answers 500, one
    that times out, one that cannot be reached. *)
Lemma create_agent_outcomes_witness :
  (fst (create_agent ascii_upper str_of_constants 1 hume (u8 "agent")
          (u8 "Be friendly.") (u8 "ITO") (u8 "en") None quiet)
   = Ok (PStr (u8 "cfg-1"))
   /\ truthy (PStr (u8 "cfg-1")) = true)
  /\ fst (create_agent ascii_upper str_of_constants 1 hume (u8 "agent")
            (u8 "Be friendly.") (u8 "ITO") (u8 "en") None
            (world_of (fun _ => answer 500 (Raise ValueError))))
     = Ok PNone
  /\ fst (create_agent ascii_upper str_of_constants 1 hume (u8 "agent")
            (u8 "Be friendly.") (u8 "ITO") (u8 "en") None
            (world_of (fun _ => Fails Timeout)))
     = Ok PNone
  /\ fst (create_agent ascii_upper str_of_constants 1 hume (u8 "agent")
            (u8 "Be friendly.") (u8 "ITO") (u8 "en") None
            (world_of (fun _ => Fails ConnectionError)))
     = Ok PNone.
Proof.
  split; [| split; [| split]].
  - apply (proj1 (create_agent_outcomes ascii_upper str_of_constants 0 hume
                    (u8 "agent") (u8 "Be friendly.") (u8 "ITO") (u8 "en") None
                    quiet)
             {| status_code := 201; text := [];
                body_json := Ok (PDict [ (u8 "id", PStr (u8 "cfg-1")) ]) |}
             (PDict [ (u8 "id", PStr (u8 "cfg-1")) ]) (u8 "cfg-1"));
      try reflexivity.
    vm_compute. discriminate.
  - apply (proj1 (proj2 (create_agent_outcomes ascii_upper str_of_constants 0
                           hume (u8 "agent") (u8 "Be friendly.") (u8 "ITO")
                           (u8 "en") None
                           (world_of (fun _ => answer 500 (Raise ValueError)))))
             {| status_code := 500; text := []; body_json := Raise ValueError |});
      [reflexivity | simpl; lia | simpl; lia].
  - apply (proj2 (proj2 (create_agent_outcomes ascii_upper str_of_constants 0
                           hume (u8 "agent") (u8 "Be friendly.") (u8 "ITO")
                           (u8 "en") None (world_of (fun _ => Fails Timeout))))
             Timeout).
    reflexivity.
  - apply (proj2 (proj2 (create_agent_outcomes ascii_upper str_of_constants 0
                           hume (u8 "agent") (u8 "Be friendly.") (u8 "ITO")
                           (u8 "en") None
                           (world_of (fun _ => Fails ConnectionError))))
             ConnectionError).
    reflexivity.
Defined.

(** C7 at a provider that answers 409 once. *)
Lemma conflict_retried_witness :
  sent (snd (create_agent ascii_upper str_of_constants 2 hume (u8 "agent")
               (u8 "Be friendly.") (u8 "ITO") (u8 "en") None (conflicts 1)))
  = [ create_request hume (u8 "agent") (u8 "Be friendly.") (u8 "ITO") (u8 "en");
      create_request hume (u8 "agent_20250102120007") (u8 "Be friendly.")
        (u8 "ITO") (u8 "en") ]
  /\ u8 "agent_20250102120007" <> u8 "agent".
Proof.
  assert (T : u8 "agent" ++ u8 "_" ++ strftime_YmdHMS (clock (conflicts 1) 1)
              = u8 "agent_20250102120007") by (vm_compute; reflexivity).
  rewrite <- T.
  apply (conflict_retried_under_new_name ascii_upper str_of_constants 0 hume
           (u8 "agent") (u8 "Be friendly.") (u8 "ITO") (u8 "en") None
           (conflicts 1)
           {| status_code := 409; text := []; body_json := Raise ValueError |});
    reflexivity.
Defined.

(** C7 as stated fails: answered 409 twice, [create_agent] sends two
    follow-up requests, and the transport sees three names. *)
Lemma second_conflict_retried_again :
  conflict (remote (conflicts 2) 0
              (create_request hume (u8 "agent") (u8 "Be friendly.") (u8 "ITO")
                 (u8 "en"))) = true
  /\ sent (snd (create_agent ascii_upper str_of_constants 5 hume (u8 "agent")
                  (u8 "Be friendly.") (u8 "ITO") (u8 "en") None (conflicts 2)))
     = [ create_request hume (u8 "agent") (u8 "Be friendly.") (u8 "ITO") (u8 "en");
         create_request hume (u8 "agent_20250102120007") (u8 "Be friendly.")
           (u8 "ITO") (u8 "en");
         create_request hume (u8 "agent_20250102120007_20250102120007")
           (u8 "Be friendly.") (u8 "ITO") (u8 "en") ].
Proof. split; vm_compute; reflexivity. Qed.

(** C10 at three agents: [acme] with an empty script, an agent with a
    script and empty mappings, and [acme], whose knowledge file
    open_hours is empty. *)
Lemma sections_gated_witness :
  let no_script :=
    {| Agent.name := Agent.name acme;
       Agent.business_info := Agent.business_info acme;
       Agent.sales_script_text := PStr [];
       Agent.knowledge_files := Agent.knowledge_files acme |} in
  let script_only :=
    {| Agent.name := PStr (u8 "Bob"); Agent.business_info := PDict [];
       Agent.sales_script_text := PStr (u8 "Hello");
       Agent.knowledge_files := PDict [] |} in
  let without_open_hours :=
    {| Agent.name := Agent.name acme;
       Agent.business_info := Agent.business_info acme;
       Agent.sales_script_text := Agent.sales_script_text acme;
       Agent.knowledge_files :=
         PDict ([ (u8 "return_policy", PStr (u8 "30 days")) ] ++ []) |} in
  let out agent :=
    fst (_build_system_prompt ascii_upper str_of_constants (u8 "Be friendly.")
           (Some agent) quiet) in
  out no_script
  = Ok (join nl
          (header_lines str_of_constants no_script
           ++ knowledge_base_lines ascii_upper str_of_constants no_script
           ++ question_handling_lines (u8 "Acme")
           ++ critical_rules_lines (u8 "Acme")))
  /\ out script_only
     = Ok (join nl
             ([ header_line (u8 "our company") ]
              ++ call_script_lines script_only
              ++ question_handling_lines (u8 "our company")
              ++ critical_rules_lines (u8 "our company")))
  /\ out acme = out without_open_hours.
Proof.
  intros no_script script_only without_open_hours out. subst out. cbv beta.
  split; [| split].
  - refine (eq_trans
              (proj1 (sections_gated_on_truthiness ascii_upper str_of_constants
                        (u8 "Be friendly.") no_script quiet) eq_refl) _).
    vm_compute. reflexivity.
  - refine (eq_trans
              (proj1 (proj2 (sections_gated_on_truthiness ascii_upper
                               str_of_constants (u8 "Be friendly.") script_only
                               quiet)) eq_refl eq_refl) _).
    vm_compute. reflexivity.
  - refine (proj2 (proj1 (proj2 (proj2 (sections_gated_on_truthiness
                                          ascii_upper str_of_constants
                                          (u8 "Be friendly.") acme quiet)))
                     [ (u8 "return_policy", PStr (u8 "30 days")) ]
                     (u8 "open_hours") (PStr []) [] eq_refl eq_refl) _).
    discriminate.
Defined.

(** X2 at [numbered]: the company name is 7. *)
Lemma fallback_on_ill_typed_fields_witness :
  fst (_build_system_prompt ascii_upper str_of_constants (u8 "Be friendly.")
         (Some numbered) quiet)
  = Ok (u8 "Be friendly.").
Proof.
  apply (proj1 (fallback_on_ill_typed_fields ascii_upper str_of_constants
                  (u8 "Be friendly.") numbered quiet)
           [ (u8 "company_name", PInt 7) ] (PInt 7));
    reflexivity.
Defined.

(** X3 at [acme]. *)
Lemma prompt_frame_witness :
  exists middle,
    fst (_build_system_prompt ascii_upper str_of_constants (u8 "Be friendly.")
           (Some acme) quiet)
    = Ok (header_line (u8 "Acme") ++ middle
          ++ join nl (question_handling_lines (u8 "Acme"))
          ++ nl ++ join nl (critical_rules_lines (u8 "Acme"))).
Proof.
  apply (proj1 (prompt_frame ascii_upper str_of_constants (u8 "Be friendly.")
                  acme quiet eq_refl)).
Defined.

(** X4 at [acme]. *)
Lemma script_before_knowledge_base_witness :
  exists pre middle post,
    fst (_build_system_prompt ascii_upper str_of_constants (u8 "Be friendly.")
           (Some acme) quiet)
    = Ok (pre ++ u8 "Hello, this is Bob from Acme." ++ middle
          ++ (ascii_upper (u8 "Acme") ++ u8 " KNOWLEDGE BASE:") ++ post).
Proof.
  apply (script_before_knowledge_base ascii_upper str_of_constants
           (u8 "Be friendly.") acme (u8 "Hello, this is Bob from Acme.") quiet).
  - reflexivity.
  - reflexivity.
  - vm_compute. discriminate.
  - reflexivity.
Defined.

(** X5 at [malformed]: the join raises a TypeError, and that is the
    exception in the record. *)
Lemma fallback_is_logged_witness :
  let body :=
    with_prompt_parts (build_prompt ascii_upper str_of_constants malformed) quiet in
  fst body = Raise TypeError
  /\ _build_system_prompt ascii_upper str_of_constants (u8 "Be friendly.")
       (Some malformed) quiet
     = (Ok (u8 "Be friendly."), logged [ErrorBuilding TypeError] (snd body)).
Proof.
  intros body. split; [vm_compute; reflexivity |].
  apply (proj1 (fallback_is_logged ascii_upper str_of_constants
                  (u8 "Be friendly.") malformed quiet) TypeError (snd body)).
  vm_compute. reflexivity.
Defined.

(** X7 at a provider that answers 201 with a body without id, and at
    one whose body is a list. *)
Lemma created_with_odd_body_witness :
  fst (create_agent ascii_upper str_of_constants 1 hume (u8 "agent")
         (u8 "Be friendly.") (u8 "ITO") (u8 "en") None
         (world_of (fun _ => answer 201 (Ok (PDict [ (u8 "name", PStr (u8 "agent")) ])))))
  = Ok PNone
  /\ fst (create_agent ascii_upper str_of_constants 1 hume (u8 "agent")
            (u8 "Be friendly.") (u8 "ITO") (u8 "en") None
            (world_of (fun _ => answer 201 (Ok (PList [])))))
     = Ok PNone.
Proof.
  split.
  - apply (proj1 (created_with_odd_body ascii_upper str_of_constants 0 hume
                    (u8 "agent") (u8 "Be friendly.") (u8 "ITO") (u8 "en") None
                    (world_of (fun _ => answer 201
                                 (Ok (PDict [ (u8 "name", PStr (u8 "agent")) ]))))
                    {| status_code := 201; text := [];
                       body_json := Ok (PDict [ (u8 "name", PStr (u8 "agent")) ]) |}
                    eq_refl eq_refl)
             [ (u8 "name", PStr (u8 "agent")) ]).
    reflexivity.
  - apply (proj2 (proj2 (created_with_odd_body ascii_upper str_of_constants 0
                           hume (u8 "agent") (u8 "Be friendly.") (u8 "ITO")
                           (u8 "en") None
                           (world_of (fun _ => answer 201 (Ok (PList []))))
                           {| status_code := 201; text := [];
                              body_json := Ok (PList []) |}
                           eq_refl eq_refl))
             (PList [])); reflexivity.
Defined.

(** X8 at a provider that answers 409 twice and creates the agent
    then. *)
Lemma conflicts_walk_the_names_witness :
  let run :=
    create_agent ascii_upper str_of_constants 3 hume (u8 "agent")
      (u8 "Be friendly.") (u8 "ITO") (u8 "en") None (conflicts 2) in
  sent (snd run)
  = map (fun n => create_request hume n (u8 "Be friendly.") (u8 "ITO") (u8 "en"))
      [ u8 "agent"; u8 "agent_20250102120007";
        u8 "agent_20250102120007_20250102120007" ]
  /\ ticks (snd run) = 4
  /\ fst run = Ok (PStr (u8 "cfg-1")).
Proof.
  assert (T : retry_names (clock (conflicts 2)) (ticks (conflicts 2)) (u8 "agent") 2
              = [ u8 "agent"; u8 "agent_20250102120007";
                  u8 "agent_20250102120007_20250102120007" ])
    by (vm_compute; reflexivity).
  rewrite <- T.
  apply (conflicts_walk_the_names ascii_upper str_of_constants 2 0 hume
           (u8 "agent") (u8 "Be friendly.") (u8 "ITO") (u8 "en") None
           (conflicts 2)).
  - intros i Hi. destruct i as [|[|i]]; [reflexivity | reflexivity | lia].
  - reflexivity.
Defined.

(** X11 at a rename that the provider accepts. *)
Lemma update_agent_patches_witness :
  let run :=
    update_agent hume (u8 "cfg-1") (PStr (u8 "Bob")) PNone PNone PNone
      (world_of (fun _ => answer 200 (Ok (PDict [])))) in
  sent (snd run)
  = [ config_request PATCH hume (u8 "cfg-1")
        (Some (PDict [ (u8 "name", PStr (u8 "Bob")) ])) ]
  /\ fst run = Ok true.
Proof.
  pose proof (update_agent_patches hume (u8 "cfg-1") (PStr (u8 "Bob")) PNone
                PNone PNone (world_of (fun _ => answer 200 (Ok (PDict []))))
                eq_refl) as (Hs & Hr & _).
  split; [exact Hs |].
  apply (proj2 Hr).
  exists {| status_code := 200; text := []; body_json := Ok (PDict []) |}.
  split; reflexivity.
Defined.

(** X13 at the answers 204 and 404. *)
Lemma delete_agent_contract_witness :
  fst (delete_agent hume (u8 "cfg-1")
         (world_of (fun _ => answer 204 (Raise ValueError)), []))
  = Ok true
  /\ fst (delete_agent hume (u8 "cfg-1")
            (world_of (fun _ => answer 404 (Raise ValueError)), []))
     <> Ok true.
Proof.
  split.
  - apply (proj2 (proj1 (proj2 (delete_agent_contract hume (u8 "cfg-1")
                                  (world_of (fun _ => answer 204 (Raise ValueError)),
                                   []))))).
    exists {| status_code := 204; text := []; body_json := Raise ValueError |}.
    split; [reflexivity | right; reflexivity].
  - intros H.
    apply (proj1 (proj1 (proj2 (delete_agent_contract hume (u8 "cfg-1")
                                  (world_of (fun _ => answer 404 (Raise ValueError)),
                                   []))))) in H.
    destruct H as (r & Hr & Hs). injection Hr as <-.
    destruct Hs as [Hs|Hs]; discriminate Hs.
Defined.

(** X14 at a provider that answers 200 with a configuration, and at
    one whose body cannot be parsed. *)
Lemma get_agent_contract_witness :
  fst (get_agent hume (u8 "cfg-1") (quiet, []))
  = Ok PNone
  /\ fst (get_agent hume (u8 "cfg-1")
            (world_of (fun _ => answer 200 (Ok (PDict [ (u8 "id", PStr (u8 "cfg-1")) ]))),
             []))
     = Ok (PDict [ (u8 "id", PStr (u8 "cfg-1")) ])
  /\ fst (get_agent hume (u8 "cfg-1")
            (world_of (fun _ => answer 200 (Raise ValueError)), []))
     = Ok PNone.
Proof.
  split; [| split].
  - apply (proj1 (proj2 (proj2 (proj2 (get_agent_contract hume (u8 "cfg-1")
                                         (quiet, [])))))
             {| status_code := 201; text := [];
                body_json := Ok (PDict [ (u8 "id", PStr (u8 "cfg-1")) ]) |});
      [reflexivity | discriminate].
  - apply (proj1 (proj2 (get_agent_contract hume (u8 "cfg-1")
                           (world_of (fun _ => answer 200
                                        (Ok (PDict [ (u8 "id", PStr (u8 "cfg-1")) ]))),
                            [])))
             {| status_code := 200; text := [];
                body_json := Ok (PDict [ (u8 "id", PStr (u8 "cfg-1")) ]) |});
      reflexivity.
  - apply (proj1 (proj2 (proj2 (get_agent_contract hume (u8 "cfg-1")
                                  (world_of (fun _ => answer 200 (Raise ValueError)),
                                   []))))
             {| status_code := 200; text := []; body_json := Raise ValueError |}
             ValueError);
      reflexivity.
Defined.

(** X15 at a provider whose body holds no configs, and at one whose
    body is a list. *)
Lemma list_agents_contract_witness :
  fst (list_agents hume
         (world_of (fun _ => answer 200 (Ok (PDict [ (u8 "total", PInt 0) ]))), []))
  = Ok (PList [])
  /\ fst (list_agents hume
            (world_of (fun _ => answer 200
                         (Ok (PDict [ (u8 "configs", PNone) ]))), []))
     = Ok PNone
  /\ fst (list_agents hume
            (world_of (fun _ => answer 200 (Ok (PList [ PInt 1 ]))), []))
     = Ok (PList []).
Proof.
  split; [| split].
  - apply (proj1 (proj2 (list_agents_contract hume
                           (world_of (fun _ => answer 200
                                        (Ok (PDict [ (u8 "total", PInt 0) ]))), [])))
             {| status_code := 200; text := [];
                body_json := Ok (PDict [ (u8 "total", PInt 0) ]) |}
             [ (u8 "total", PInt 0) ]);
      reflexivity.
  - apply (proj1 (proj2 (list_agents_contract hume
                           (world_of (fun _ => answer 200
                                        (Ok (PDict [ (u8 "configs", PNone) ]))), [])))
             {| status_code := 200; text := [];
                body_json := Ok (PDict [ (u8 "configs", PNone) ]) |}
             [ (u8 "configs", PNone) ]);
      reflexivity.
  - apply (proj1 (proj2 (proj2 (list_agents_contract hume
                                  (world_of (fun _ => answer 200
                                               (Ok (PList [ PInt 1 ]))), []))))
             {| status_code := 200; text := [];
                body_json := Ok (PList [ PInt 1 ]) |}
             (PList [ PInt 1 ]));
      reflexivity.
Defined.

(** X16 at [acme] under another name. *)
Lemma agent_name_is_not_used_witness :
  let renamed :=
    {| Agent.name := PStr (u8 "Alice");
       Agent.business_info := Agent.business_info acme;
       Agent.sales_script_text := Agent.sales_script_text acme;
       Agent.knowledge_files := Agent.knowledge_files acme |} in
  _build_system_prompt ascii_upper str_of_constants (u8 "Be friendly.")
    (Some acme) quiet
  = _build_system_prompt ascii_upper str_of_constants (u8 "Be friendly.")
      (Some renamed) quiet
  /\ create_agent ascii_upper str_of_constants 2 hume (u8 "agent")
       (u8 "Be friendly.") (u8 "ITO") (u8 "en") (Some acme) quiet
     = create_agent ascii_upper str_of_constants 2 hume (u8 "agent")
         (u8 "Be friendly.") (u8 "ITO") (u8 "en") (Some renamed) quiet.
Proof.
  intros renamed.
  apply (agent_name_is_not_used ascii_upper str_of_constants 2 hume
           (u8 "agent") (u8 "Be friendly.") (u8 "ITO") (u8 "en") acme renamed
           quiet); reflexivity.
Defined.

(** X17 at [acme] and two base prompts. *)
Lemma base_prompt_ignored_witness :
  create_agent ascii_upper str_of_constants 2 hume (u8 "agent")
    (u8 "Be friendly.") (u8 "ITO") (u8 "en") (Some acme) quiet
  = create_agent ascii_upper str_of_constants 2 hume (u8 "agent")
      (u8 "Be brief.") (u8 "ITO") (u8 "en") (Some acme) quiet.
Proof.
  apply (base_prompt_ignored_when_composed ascii_upper str_of_constants 2 hume
           (u8 "agent") (u8 "Be friendly.") (u8 "Be brief.") (u8 "ITO")
           (u8 "en") acme quiet).
  reflexivity.
Defined.

(** X18 at [leaflet]. *)
Lemma unreadable_business_info_witness :
  fst (_build_system_prompt ascii_upper str_of_constants (u8 "Be friendly.")
         (Some leaflet) quiet)
  = Ok (join nl
          ([ header_line (u8 "our company") ]
           ++ [ nl ++ nl ++ banner; u8 "OUR COMPANY KNOWLEDGE BASE:"; banner;
                nl ++ u8 "FAQ:"; u8 "Ask us." ]
           ++ question_handling_lines (u8 "our company")
           ++ critical_rules_lines (u8 "our company"))).
Proof.
  refine (eq_trans
            (unreadable_business_info ascii_upper str_of_constants
               (u8 "Be friendly.") leaflet quiet _ _ _) _);
    vm_compute; reflexivity.
Defined.

(** X19 at [acme]. *)
Lemma composed_prompt_is_cut_witness :
  exists enhanced_prompt,
    fst (_build_system_prompt ascii_upper str_of_constants (u8 "Be friendly.")
           (Some acme) quiet) = Ok enhanced_prompt
    /\ 200 < length enhanced_prompt
    /\ py_get (create_payload (u8 "agent") enhanced_prompt (u8 "ITO") (u8 "en"))
         (u8 "description") PNone
       = Ok (PStr (firstn 200 enhanced_prompt ++ u8 "...")).
Proof.
  apply (composed_prompt_is_cut ascii_upper str_of_constants (u8 "Be friendly.")
           (u8 "agent") (u8 "ITO") (u8 "en") acme quiet).
  reflexivity.
Defined.
